(** * pike_draw: drawing helpers that emit PDF content-stream operators

    A shallow embedding of [src/pike_draw.py]: [color_code], and the two
    methods [draw_line] and [draw_rect] of [MyPage].

    Conventions of the embedding.
    - A Python [str] is a Rocq [string] holding its UTF-8 bytes; it is
      ASCII-encodable exactly when every byte is below 128, and then
      [bytes(s, 'ascii')] is the same byte sequence.
    - Python numbers (int, finite float, Fraction) are an abstract type
      [num] with the operations the code applies to them: [<], [==] and
      [format(x, '')].  [a > b] is read as [b < a].  The order laws of
      [PyNumberLaws] hold for ints, finite floats and Fractions; they do not
      hold for the float nan, which [pynum] has beside the ints.
    - Arguments carry the type of their annotation in the signature, except
      the colours: the code inspects them at run time ([type(c) is not list],
      [is not None]), so they are dynamic values [pyval].
    - An exception is a value of [exn]; a method of the page is a function
      from the page to the page afterwards and a result. *)

From Stdlib Require Import ZArith List String Ascii Bool Lia DecimalString.
Import ListNotations.
Open Scope string_scope.

(** ** Exceptions and results *)

Inductive exn : Type :=
| ValueError (msg : string)
| IndexError
| UnicodeEncodeError.

Inductive result (A : Type) : Type :=
| Ok (a : A)
| Raise (e : exn).

Arguments Ok {A} a.
Arguments Raise {A} e.

Definition rbind {A B : Type} (r : result A) (k : A -> result B) : result B :=
  match r with
  | Ok a => k a
  | Raise e => Raise e
  end.

(** The messages of the four [raise ValueError(...)] statements. *)
Definition msg_color : string :=
  "RGB color needs 3 color components in range 0 to 1".
Definition msg_border_width : string := "border_width must be non-negative".
Definition msg_line_join : string := "line_join_style value must be 0, 1, or 2".
Definition msg_line_cap : string := "line_cap_style value must be 0, 1, or 2".

(** The spec's two error kinds. *)
Definition InvalidColor : exn := ValueError msg_color.

Definition InvalidParameter (e : exn) : Prop :=
  e = ValueError msg_border_width \/
  e = ValueError msg_line_join \/
  e = ValueError msg_line_cap.

(** ** Numbers *)

Class PyNumber (num : Type) : Type := {
  of_int : Z -> num;              (* an int literal of the source *)
  num_lt : num -> num -> bool;    (* a < b *)
  num_eq : num -> num -> bool;    (* a == b *)
  num_str : num -> string         (* format(a, ''), as an f-string does *)
}.

(** Python's int, printed in decimal. *)
Definition string_of_Z (z : Z) : string := NilZero.string_of_int (Z.to_int z).

#[export] Instance Z_number : PyNumber Z := {
  of_int := fun z => z;
  num_lt := Z.ltb;
  num_eq := Z.eqb;
  num_str := string_of_Z
}.

Definition is_ascii (s : string) : bool :=
  forallb (fun a => Nat.ltb (nat_of_ascii a) 128) (list_ascii_of_string s).

(** How a number prints: a non-empty word of digits, sign, point, exponent
    mark or fraction bar. ([True], [inf] and [nan] are no such words: bool
    and the non-finite floats are outside the model.) *)
Definition num_char (a : ascii) : bool :=
  existsb (Ascii.eqb a) (list_ascii_of_string "0123456789+-.eE/").

Definition num_word (s : string) : bool :=
  match s with
  | EmptyString => false
  | String _ _ => forallb num_char (list_ascii_of_string s)
  end.

(** What the proofs use of a number type: [<] is a strict weak order that
    agrees with the order of the int literals, int literals print in
    decimal, and every number prints as a [num_word]. *)
Class PyNumberLaws (num : Type) {N : PyNumber num} : Prop := {
  lt_irrefl : forall a : num, num_lt a a = false;
  lt_trans : forall a b c : num,
      num_lt a b = true -> num_lt b c = true -> num_lt a c = true;
  lt_cotrans : forall a b c : num,
      num_lt a b = true -> num_lt a c = true \/ num_lt c b = true;
  lt_of_int : forall y z : Z, num_lt (of_int y) (of_int z) = Z.ltb y z;
  str_of_int : forall z : Z, num_str (of_int z) = string_of_Z z;
  str_word : forall a : num, num_word (num_str a) = true
}.

(** Python's ints together with the float [nan]: every comparison with
    [nan] is False, and [nan] prints as [nan]. The order laws fail for it. *)
Inductive pynum : Type :=
| PyInt (z : Z)
| PyNaN.

#[export] Instance nan_number : PyNumber pynum := {
  of_int := PyInt;
  num_lt := fun a b =>
    match a, b with
    | PyInt x, PyInt y => Z.ltb x y
    | _, _ => false
    end;
  num_eq := fun a b =>
    match a, b with
    | PyInt x, PyInt y => Z.eqb x y
    | _, _ => false
    end;
  num_str := fun a =>
    match a with
    | PyInt z => string_of_Z z
    | PyNaN => "nan"
    end
}.

(** ** Reading a fragment as PDF tokens

    A token here is a maximal run of characters that are not white space.
    PDF also ends a token at a delimiter such as a bracket; the templates
    put white space around every operator they emit, so the runs are enough
    to find the operators and their order. *)

(** The white-space characters of PDF: NUL, TAB, LF, FF, CR and SP. *)
Definition is_ws (a : ascii) : bool :=
  existsb (Nat.eqb (nat_of_ascii a)) [0; 9; 10; 12; 13; 32].

(** The pieces between white-space characters, empty ones included. *)
Fixpoint split_ws (s : string) : list string :=
  match s with
  | EmptyString => [EmptyString]
  | String a s' =>
      if is_ws a then EmptyString :: split_ws s'
      else match split_ws s' with
           | [] => [String a EmptyString]
           | w :: ws => String a w :: ws
           end
  end.

Definition nonempty (s : string) : bool :=
  match s with
  | EmptyString => false
  | String _ _ => true
  end.

(** The tokens of a content stream, in order. *)
Definition tokens (s : string) : list string := filter nonempty (split_ws s).

Definition starts_ws (s : string) : bool :=
  match s with
  | EmptyString => false
  | String a _ => is_ws a
  end.

Fixpoint ends_ws (s : string) : bool :=
  match s with
  | EmptyString => false
  | String a EmptyString => is_ws a
  | String _ s' => ends_ws s'
  end.

(** The operators that fill a path or set the fill colour. *)
Definition fill_operators : list string :=
  ["f"; "F"; "f*"; "B"; "B*"; "b"; "b*"; "rg"].

(** ** Values *)

Section Values.

Context {num : Type} {N : PyNumber num}.

(** The values a colour argument can be: a list or a tuple of numbers, or
    something that is no sequence of numbers at all. *)
Inductive pyval : Type :=
| PyNone
| PyNum (n : num)
| PyStr (s : string)
| PyList (l : list num)
| PyTuple (l : list num).

(** [min(c)]: the first smallest item, found with [<] from left to right;
    [max(c)] likewise with [>]. Both raise ValueError on an empty
    sequence. *)
Definition fold_min (r : list num) (x : num) : num :=
  fold_left (fun cur item => if num_lt item cur then item else cur) r x.

Definition fold_max (r : list num) (x : num) : num :=
  fold_left (fun cur item => if num_lt cur item then item else cur) r x.

Definition py_min (l : list num) : result num :=
  match l with
  | [] => Raise (ValueError "min() arg is an empty sequence")
  | x :: r => Ok (fold_min r x)
  end.

Definition py_max (l : list num) : result num :=
  match l with
  | [] => Raise (ValueError "max() arg is an empty sequence")
  | x :: r => Ok (fold_max r x)
  end.

(** [c[i]] on a list. *)
Definition subscript (l : list num) (i : nat) : result num :=
  match nth_error l i with
  | Some x => Ok x
  | None => Raise IndexError
  end.

(** ** color_code *)

(** The f-string [f"{c[0]} {c[1]} {c[2]} OP "]. *)
Definition color_fmt (l : list num) (op : string) : result string :=
  rbind (subscript l 0) (fun c0 =>
  rbind (subscript l 1) (fun c1 =>
  rbind (subscript l 2) (fun c2 =>
  Ok (num_str c0 ++ " " ++ num_str c1 ++ " " ++ num_str c2 ++ " " ++ op ++ " ")))).

Definition color_code (c : pyval) (f : string) : result string :=
  match c with
  | PyList l =>
      if negb (Nat.eqb (List.length l) 3) then Raise (ValueError msg_color) else
      rbind (py_min l) (fun lo =>
      if num_lt lo (of_int 0) then Raise (ValueError msg_color) else
      rbind (py_max l) (fun hi =>
      if num_lt (of_int 1) hi then Raise (ValueError msg_color) else
      if String.eqb f "c" then color_fmt l "RG" else color_fmt l "rg"))
  | _ => Raise (ValueError msg_color)
  end.

(** ** The page and its content streams *)

(** The page's /Contents: the content streams in order. [contents_add]
    belongs to pikepdf; it puts one more stream after the others. *)
Definition page : Type := list string.

(** A method of the page: the page afterwards and what the call gave. An
    exception leaves the page as it was when it was raised. *)
Definition M (A : Type) : Type := page -> page * result A.

Definition ret {A : Type} (a : A) : M A := fun pg => (pg, Ok a).
Definition raise {A : Type} (e : exn) : M A := fun pg => (pg, Raise e).
Definition lift {A : Type} (r : result A) : M A := fun pg => (pg, r).
Definition bind {A B : Type} (m : M A) (k : A -> M B) : M B :=
  fun pg =>
    match m pg with
    | (pg', Ok a) => k a pg'
    | (pg', Raise e) => (pg', Raise e)
    end.

Notation "x <- m ;; k" := (bind m (fun x => k))
  (at level 61, m at next level, right associativity).

Definition contents_add (data : string) : M unit :=
  fun pg => ((pg ++ [data])%list, Ok tt).

(** [bytes(s, 'ascii')]. *)
Definition bytes_ascii (s : string) : result string :=
  if is_ascii s then Ok s else Raise UnicodeEncodeError.

(** [x not in [0, 1, 2]]. *)
Definition in_012 (x : num) : bool :=
  existsb (fun k => num_eq x (of_int k)) [0; 1; 2]%Z.

(** ** The content-stream templates *)

(** A line break of the triple-quoted template and the eight blanks that
    indent its next line. *)
Definition NL : string := String "010" "        ".

(** The line feed of ['B\n'], ['f\n'] and ['\n']. *)
Definition LF : string := String "010" EmptyString.

(** [dash_pattern + " d"], or the one blank. *)
Definition dash_str (dash_pattern : option string) : string :=
  match dash_pattern with
  | Some d => d ++ " d"
  | None => " "
  end.

Definition line_template (x0 y0 x1 y1 w j c dash color : string) : string :=
  NL ++ "q" ++
  NL ++ x0 ++ " " ++ y0 ++ " m" ++
  NL ++ x1 ++ " " ++ y1 ++ " l" ++
  NL ++ w ++ " w" ++
  NL ++ "h" ++
  NL ++ j ++ " j" ++
  NL ++ c ++ " J" ++
  NL ++ dash ++
  NL ++ color ++
  NL ++ "Q" ++
  NL.

Definition rect_template (x y width height w j c dash color : string) : string :=
  NL ++ "q" ++
  NL ++ x ++ " " ++ y ++ " " ++ width ++ " " ++ height ++ " re" ++
  NL ++ w ++ " w" ++
  NL ++ "h" ++
  NL ++ j ++ " j" ++
  NL ++ c ++ " J" ++
  NL ++ dash ++
  NL ++ color ++
  NL ++ "Q" ++
  NL.

Definition BLACK : pyval := PyList [of_int 0; of_int 0; of_int 0].

Definition is_not_None (v : pyval) : bool :=
  match v with
  | PyNone => false
  | _ => true
  end.

(** ** draw_line *)

(** Lines 52-56: the colour of the line, then [S]. *)
Definition line_color_str (stroke_color : pyval) : result string :=
  rbind (if is_not_None stroke_color
         then color_code stroke_color "c"
         else color_code BLACK "c") (fun all_color_str =>
  Ok (all_color_str ++ "S")).

Definition draw_line (start_point end_point : list num) (border_width : num)
    (stroke_color : pyval) (dash_pattern : option string)
    (line_join_style line_cap_style : num) : M unit :=
  if num_lt border_width (of_int 0)
  then raise (ValueError msg_border_width) else
  if negb (in_012 line_join_style)
  then raise (ValueError msg_line_join) else
  if negb (in_012 line_cap_style)
  then raise (ValueError msg_line_cap) else
  all_color_str <- lift (line_color_str stroke_color) ;;
  let dash_pattern_str := dash_str dash_pattern in
  x0 <- lift (subscript start_point 0) ;;
  y0 <- lift (subscript start_point 1) ;;
  x1 <- lift (subscript end_point 0) ;;
  y1 <- lift (subscript end_point 1) ;;
  let line_stream_str :=
    line_template (num_str x0) (num_str y0) (num_str x1) (num_str y1)
      (num_str border_width) (num_str line_join_style)
      (num_str line_cap_style) dash_pattern_str all_color_str in
  data <- lift (bytes_ascii line_stream_str) ;;
  contents_add data.

(** ** draw_rect *)

(** Lines 115-125: the colour and paint operators of the rectangle. The
    last branch's test [stroke_color is None] is always true there. *)
Definition rect_color_str (fill_color stroke_color : pyval) : result string :=
  rbind (if is_not_None fill_color && is_not_None stroke_color then
           rbind (color_code fill_color "f") (fun a =>
           rbind (color_code stroke_color "c") (fun b =>
           Ok (a ++ b ++ "B" ++ LF)))
         else if is_not_None fill_color then
           rbind (color_code fill_color "f") (fun a =>
           Ok (a ++ "f" ++ LF))
         else if is_not_None stroke_color then
           rbind (color_code stroke_color "c") (fun b =>
           Ok (b ++ LF))
         else
           rbind (color_code BLACK "c") (fun b =>
           Ok (b ++ LF))) (fun all_color_str =>
  Ok (all_color_str ++ "S")).

Definition draw_rect (point : list num) (width height : num)
    (border_width : num) (stroke_color : pyval) (dash_pattern : option string)
    (fill_color : pyval) (line_join_style line_cap_style : num) : M unit :=
  if num_lt border_width (of_int 0)
  then raise (ValueError msg_border_width) else
  if negb (in_012 line_join_style)
  then raise (ValueError msg_line_join) else
  if negb (in_012 line_cap_style)
  then raise (ValueError msg_line_cap) else
  all_color_str <- lift (rect_color_str fill_color stroke_color) ;;
  let dash_pattern_str := dash_str dash_pattern in
  x <- lift (subscript point 0) ;;
  y <- lift (subscript point 1) ;;
  let rect_stream_str :=
    rect_template (num_str x) (num_str y) (num_str width) (num_str height)
      (num_str border_width) (num_str line_join_style)
      (num_str line_cap_style) dash_pattern_str all_color_str in
  data <- lift (bytes_ascii rect_stream_str) ;;
  contents_add data.

(** ** Vocabulary of the statements *)

(** A component in the closed interval from 0 to 1. *)
Definition in_unit (x : num) : bool :=
  negb (num_lt x (of_int 0)) && negb (num_lt (of_int 1) x).

(** The operator string for three components. *)
Definition color_op (r g b : num) (op : string) : string :=
  num_str r ++ " " ++ num_str g ++ " " ++ num_str b ++ " " ++ op ++ " ".

(** What the spec calls an invalid colour: a sequence whose length is not 3
    or that has a component below 0 or above 1. A value that is no sequence
    of numbers is invalid as well. *)
Definition invalid_color (c : pyval) : Prop :=
  match c with
  | PyList l | PyTuple l =>
      List.length l <> 3%nat \/
      exists x, In x l /\
                (num_lt x (of_int 0) = true \/ num_lt (of_int 1) x = true)
  | _ => True
  end.

(** A colour argument that is given and valid, with its components. *)
Definition valid_color (c : pyval) (r g b : num) : Prop :=
  c = PyList [r; g; b] /\
  in_unit r = true /\ in_unit g = true /\ in_unit b = true.

(** The stroke colour of a valid [draw_line] call: a valid colour, or none
    given, which stands for black. *)
Definition stroke_rgb (stroke_color : pyval) (r g b : num) : Prop :=
  valid_color stroke_color r g b \/
  (stroke_color = PyNone /\ r = of_int 0 /\ g = of_int 0 /\ b = of_int 0).

(** The parameters that the three guards let through. *)
Definition style_ok (border_width line_join_style line_cap_style : num) : Prop :=
  num_lt border_width (of_int 0) = false /\
  in_012 line_join_style = true /\
  in_012 line_cap_style = true.

(** A dash pattern that [bytes(..., 'ascii')] can encode. *)
Definition dash_ascii (dash_pattern : option string) : bool :=
  match dash_pattern with
  | Some d => is_ascii d
  | None => true
  end.

(** The tokens of the dash line: the pattern and [d], or nothing. *)
Definition dash_tokens (dash_pattern : option string) : list string :=
  match dash_pattern with
  | Some d => (tokens d ++ ["d"])%list
  | None => []
  end.

End Values.

Arguments pyval num : clear implicits.

(** ** Vocabulary of the further statements *)

Section Outcomes.

Context {num : Type} {N : PyNumber num}.

(** A colour argument that passes: not given, or given and valid. *)
Definition passes (c : pyval num) : Prop :=
  c = PyNone \/ exists r g b, valid_color c r g b.

(** A point with fewer than the two coordinates the template reads. *)
Definition too_short (p : list num) : Prop := (List.length p < 2)%nat.

(** One call after the other on the same page, as the script does. *)
Definition and_then (first second : M unit) : M unit :=
  bind first (fun _ => second).

End Outcomes.

(** * Properties *)

(** ** Strings and tokens *)

Lemma app_str_assoc (a b c : string) : (a ++ b) ++ c = a ++ (b ++ c).
Proof.
  induction a as [|x a IH]; simpl; [reflexivity | now rewrite IH].
Qed.

Lemma is_ascii_app (a b : string) :
  is_ascii (a ++ b) = is_ascii a && is_ascii b.
Proof.
  unfold is_ascii.
  induction a as [|x a IH]; simpl; [reflexivity|].
  rewrite IH. now rewrite andb_assoc.
Qed.

Lemma split_ws_not_nil (s : string) : split_ws s <> [].
Proof.
  destruct s as [|a s]; simpl; [discriminate|].
  destruct (is_ws a); [discriminate|].
  destruct (split_ws s); discriminate.
Qed.

Lemma split_ws_sep (a b : string) (w : ascii) :
  is_ws w = true ->
  split_ws (a ++ String w b) = (split_ws a ++ split_ws b)%list.
Proof.
  intros Hw. induction a as [|x a IH]; simpl.
  - now rewrite Hw.
  - rewrite IH. destruct (is_ws x); [reflexivity|].
    pose proof (split_ws_not_nil a) as Hne.
    destruct (split_ws a) as [|p ps]; [congruence | reflexivity].
Qed.

Lemma tokens_sep (a b : string) (w : ascii) :
  is_ws w = true ->
  tokens (a ++ String w b) = (tokens a ++ tokens b)%list.
Proof.
  intros Hw. unfold tokens. rewrite (split_ws_sep a b w Hw).
  apply filter_app.
Qed.

Lemma tokens_ws_head (b : string) (w : ascii) :
  is_ws w = true -> tokens (String w b) = tokens b.
Proof.
  intros Hw. exact (tokens_sep EmptyString b w Hw).
Qed.

(** Two pieces put side by side keep their tokens apart as soon as the
    right one starts, or the left one ends, with white space. *)
Lemma tokens_app_r (a b : string) :
  starts_ws b = true -> tokens (a ++ b) = (tokens a ++ tokens b)%list.
Proof.
  destruct b as [|w b]; simpl; [discriminate|]. intros Hw.
  rewrite (tokens_sep a b w Hw). now rewrite (tokens_ws_head b w Hw).
Qed.

Lemma ends_ws_split (a : string) :
  ends_ws a = true ->
  exists a' w, a = a' ++ String w EmptyString /\ is_ws w = true.
Proof.
  induction a as [|x a IH]; simpl; [discriminate|].
  destruct a as [|y a].
  - intros Hx. exists EmptyString, x. now split.
  - intros H. destruct (IH H) as (a' & w & E & Hw).
    exists (String x a'), w. split; [|exact Hw].
    simpl. now rewrite <- E.
Qed.

Lemma tokens_app_l (a b : string) :
  ends_ws a = true -> tokens (a ++ b) = (tokens a ++ tokens b)%list.
Proof.
  intros H. destruct (ends_ws_split a H) as (a' & w & -> & Hw).
  rewrite app_str_assoc. simpl.
  rewrite !(tokens_sep a' _ w Hw). simpl.
  now rewrite app_nil_r.
Qed.

Lemma tokens_NL (s : string) : tokens (NL ++ s) = tokens s.
Proof.
  unfold NL. simpl. now rewrite !tokens_ws_head by reflexivity.
Qed.

(** ** Number words *)

Lemma num_char_ascii (a : ascii) :
  num_char a = true -> Nat.ltb (nat_of_ascii a) 128 = true.
Proof.
  destruct a as [[] [] [] [] [] [] [] []]; try discriminate; reflexivity.
Qed.

Lemma num_char_not_ws (a : ascii) : num_char a = true -> is_ws a = false.
Proof.
  destruct a as [[] [] [] [] [] [] [] []]; try discriminate; reflexivity.
Qed.

Lemma num_word_chars (s : string) :
  num_word s = true -> forallb num_char (list_ascii_of_string s) = true.
Proof.
  destruct s; [discriminate | trivial].
Qed.

Lemma num_word_ascii (s : string) : num_word s = true -> is_ascii s = true.
Proof.
  intros H. apply num_word_chars in H. unfold is_ascii.
  rewrite forallb_forall in *. intros a Ha.
  apply num_char_ascii. now apply H.
Qed.

Lemma split_ws_word (s : string) :
  forallb num_char (list_ascii_of_string s) = true -> split_ws s = [s].
Proof.
  induction s as [|a s IH]; simpl; [reflexivity|].
  intros H. apply andb_prop in H. destruct H as [Ha Hs].
  rewrite (num_char_not_ws a Ha), (IH Hs). reflexivity.
Qed.

(** A number word is one token. *)
Lemma tokens_word (s : string) : num_word s = true -> tokens s = [s].
Proof.
  intros H. unfold tokens.
  rewrite (split_ws_word s (num_word_chars s H)).
  destruct s; [discriminate | reflexivity].
Qed.

(** A number word is no fill operator. *)
Lemma num_word_not_fill (s : string) :
  num_word s = true -> ~ In s fill_operators.
Proof.
  intros H Hin. unfold fill_operators in Hin. simpl in Hin.
  repeat (destruct Hin as [<-|Hin]; [discriminate H|]).
  exact Hin.
Qed.

(** ** The int instance satisfies the laws *)

Lemma string_of_uint_chars (d : Decimal.uint) :
  forallb num_char (list_ascii_of_string (NilEmpty.string_of_uint d)) = true.
Proof.
  induction d; simpl; try reflexivity; exact IHd.
Qed.

Lemma string_of_Z_word (z : Z) : num_word (string_of_Z z) = true.
Proof.
  unfold string_of_Z, NilZero.string_of_int, NilZero.string_of_uint.
  destruct (Z.to_int z) as [d|d]; destruct d; try reflexivity;
    try match goal with
        | |- num_word (String "-" ?s) = true =>
            change (forallb num_char (list_ascii_of_string s) = true)
        end;
    apply (string_of_uint_chars (_ _)).
Qed.

#[export] Instance Z_number_laws : PyNumberLaws Z.
Proof.
  split; simpl.
  - intros a. apply Z.ltb_irrefl.
  - intros a b c H1 H2. apply Z.ltb_lt in H1, H2. apply Z.ltb_lt. lia.
  - intros a b c H. apply Z.ltb_lt in H.
    destruct (Z.ltb_spec a c); [now left|right]. apply Z.ltb_lt. lia.
  - reflexivity.
  - reflexivity.
  - apply string_of_Z_word.
Qed.

(** ** color_code *)

Section ColorCode.

Context {num : Type} {N : PyNumber num}.

Lemma fold_min_In (r : list num) (x : num) : In (fold_min r x) (x :: r).
Proof.
  revert x. induction r as [|a r IH]; intros x; [now left|].
  change (fold_min (a :: r) x)
    with (fold_min r (if num_lt a x then a else x)).
  destruct (IH (if num_lt a x then a else x)) as [E|E].
  - rewrite <- E. destruct (num_lt a x); [right; now left | now left].
  - right. now right.
Qed.

Lemma fold_max_In (r : list num) (x : num) : In (fold_max r x) (x :: r).
Proof.
  revert x. induction r as [|a r IH]; intros x; [now left|].
  change (fold_max (a :: r) x)
    with (fold_max r (if num_lt x a then a else x)).
  destruct (IH (if num_lt x a then a else x)) as [E|E].
  - rewrite <- E. destruct (num_lt x a); [right; now left | now left].
  - right. now right.
Qed.

Lemma py_min_In (l : list num) (m : num) : py_min l = Ok m -> In m l.
Proof.
  destruct l as [|x r]; simpl; [discriminate|].
  intros [= <-]. apply fold_min_In.
Qed.

Lemma py_max_In (l : list num) (m : num) : py_max l = Ok m -> In m l.
Proof.
  destruct l as [|x r]; simpl; [discriminate|].
  intros [= <-]. apply fold_max_In.
Qed.

Lemma color_code_list3 (r g b : num) (f : string) :
  color_code (PyList [r; g; b]) f =
  if num_lt (fold_min [g; b] r) (of_int 0) then Raise InvalidColor else
  if num_lt (of_int 1) (fold_max [g; b] r) then Raise InvalidColor else
  Ok (color_op r g b (if String.eqb f "c" then "RG" else "rg")).
Proof.
  unfold color_code, py_min, py_max, rbind. simpl negb.
  cbv iota.
  destruct (num_lt _ (of_int 0)); [reflexivity|].
  destruct (num_lt (of_int 1) _); [reflexivity|].
  destruct (String.eqb f "c"); reflexivity.
Qed.

Lemma color_code_in_unit (r g b : num) (f : string) :
  in_unit r = true -> in_unit g = true -> in_unit b = true ->
  color_code (PyList [r; g; b]) f =
  Ok (color_op r g b (if String.eqb f "c" then "RG" else "rg")).
Proof.
  unfold in_unit. intros Hr Hg Hb.
  apply andb_prop in Hr, Hg, Hb.
  destruct Hr as [Hr0 Hr1], Hg as [Hg0 Hg1], Hb as [Hb0 Hb1].
  apply negb_true_iff in Hr0, Hr1, Hg0, Hg1, Hb0, Hb1.
  rewrite color_code_list3.
  assert (Hlo : num_lt (fold_min [g; b] r) (of_int 0) = false).
  { destruct (fold_min_In [g; b] r) as [E|[E|[E|[]]]]; now rewrite <- E. }
  assert (Hhi : num_lt (of_int 1) (fold_max [g; b] r) = false).
  { destruct (fold_max_In [g; b] r) as [E|[E|[E|[]]]]; now rewrite <- E. }
  now rewrite Hlo, Hhi.
Qed.

(** Every error of [color_code] is the one ValueError of the colour. *)
Lemma color_code_raises (c : pyval num) (f : string) (e : exn) :
  color_code c f = Raise e -> e = InvalidColor.
Proof.
  destruct c as [| |s|l|l]; try (now intros [= <-]).
  destruct l as [|r [|g [|b [|x l]]]]; try (now intros [= <-]).
  rewrite color_code_list3.
  destruct (num_lt _ (of_int 0)); [now intros [= <-]|].
  destruct (num_lt (of_int 1) _); [now intros [= <-]|].
  discriminate.
Qed.

(** C6. A list of exactly three components, each in the closed interval
    from 0 to 1, is encoded: [color_code] returns the three components as
    the f-string prints them, separated by single blanks, followed by
    [RG] and a blank in stroke mode ([f = "c"]) and by [rg] and a blank in
    fill mode ([f = "f"]). *)
Theorem color_code_valid (r g b : num) :
  in_unit r = true -> in_unit g = true -> in_unit b = true ->
  color_code (PyList [r; g; b]) "c" =
    Ok (num_str r ++ " " ++ num_str g ++ " " ++ num_str b ++ " RG ") /\
  color_code (PyList [r; g; b]) "f" =
    Ok (num_str r ++ " " ++ num_str g ++ " " ++ num_str b ++ " rg ").
Proof.
  intros Hr Hg Hb.
  split; rewrite (color_code_in_unit r g b _ Hr Hg Hb); reflexivity.
Qed.

(** C10. The mode is no two-way choice: for a valid colour every mode
    string other than ["c"] gives the fill operator [rg], and only ["c"]
    gives the stroke operator [RG]. *)
Theorem color_code_mode (r g b : num) (f : string) :
  in_unit r = true -> in_unit g = true -> in_unit b = true ->
  (f <> "c" ->
   color_code (PyList [r; g; b]) f =
     Ok (num_str r ++ " " ++ num_str g ++ " " ++ num_str b ++ " rg ")) /\
  (f = "c" ->
   color_code (PyList [r; g; b]) f =
     Ok (num_str r ++ " " ++ num_str g ++ " " ++ num_str b ++ " RG ")).
Proof.
  intros Hr Hg Hb.
  rewrite (color_code_in_unit r g b f Hr Hg Hb).
  split; intros Hf.
  - apply String.eqb_neq in Hf. now rewrite Hf.
  - subst f. reflexivity.
Qed.

(** C9. A colour that is not a list is rejected with the ValueError of the
    colour, a tuple of three components in range included; so a call that
    returns was given a list. *)
Theorem color_code_not_list (c : pyval num) (f : string) :
  (forall l, c <> PyList l) ->
  color_code c f = Raise InvalidColor /\
  (forall s, color_code c f <> Ok s).
Proof.
  intros Hc. destruct c as [| |s|l|l];
    try (split; [reflexivity | discriminate]).
  now destruct (Hc l).
Qed.

End ColorCode.

Section ColorCodeOrder.

Context {num : Type} {N : PyNumber num} {L : PyNumberLaws num}.

(** [min] returns a lower bound of the items, [max] an upper bound. *)
Lemma fold_min_lower (r : list num) (x y : num) :
  In y (x :: r) -> num_lt y (fold_min r x) = false.
Proof.
  revert x y. induction r as [|a r IH]; intros x y Hy.
  - destruct Hy as [<-|[]]. apply lt_irrefl.
  - change (fold_min (a :: r) x)
      with (fold_min r (if num_lt a x then a else x)).
    set (x' := if num_lt a x then a else x) in *.
    assert (Hx' : num_lt x' (fold_min r x') = false) by (apply IH; now left).
    destruct Hy as [<-|[<-|Hy]]; [| |apply IH; now right].
    + destruct (num_lt x (fold_min r x')) eqn:E; [|reflexivity].
      subst x'. destruct (num_lt a x) eqn:Eax; [|congruence].
      rewrite (lt_trans _ _ _ Eax E) in Hx'. discriminate.
    + destruct (num_lt a (fold_min r x')) eqn:E; [|reflexivity].
      subst x'. destruct (num_lt a x) eqn:Eax; [congruence|].
      destruct (lt_cotrans _ _ x E); congruence.
Qed.

Lemma fold_max_upper (r : list num) (x y : num) :
  In y (x :: r) -> num_lt (fold_max r x) y = false.
Proof.
  revert x y. induction r as [|a r IH]; intros x y Hy.
  - destruct Hy as [<-|[]]. apply lt_irrefl.
  - change (fold_max (a :: r) x)
      with (fold_max r (if num_lt x a then a else x)).
    set (x' := if num_lt x a then a else x) in *.
    assert (Hx' : num_lt (fold_max r x') x' = false) by (apply IH; now left).
    destruct Hy as [<-|[<-|Hy]]; [| |apply IH; now right].
    + destruct (num_lt (fold_max r x') x) eqn:E; [|reflexivity].
      subst x'. destruct (num_lt x a) eqn:Exa; [|congruence].
      rewrite (lt_trans _ _ _ E Exa) in Hx'. discriminate.
    + destruct (num_lt (fold_max r x') a) eqn:E; [|reflexivity].
      subst x'. destruct (num_lt x a) eqn:Exa; [congruence|].
      destruct (lt_cotrans _ _ x E); congruence.
Qed.

Lemma below_zero_min (r : list num) (x y : num) :
  In y (x :: r) -> num_lt y (of_int 0) = true ->
  num_lt (fold_min r x) (of_int 0) = true.
Proof.
  intros Hy Hlt.
  destruct (lt_cotrans _ _ (fold_min r x) Hlt) as [H|H]; [|exact H].
  rewrite (fold_min_lower r x y Hy) in H. discriminate.
Qed.

Lemma above_one_max (r : list num) (x y : num) :
  In y (x :: r) -> num_lt (of_int 1) y = true ->
  num_lt (of_int 1) (fold_max r x) = true.
Proof.
  intros Hy Hlt.
  destruct (lt_cotrans _ _ (fold_max r x) Hlt) as [H|H]; [exact H|].
  rewrite (fold_max_upper r x y Hy) in H. discriminate.
Qed.

(** Where [<] is a strict weak order, so where no component is [nan]: a
    colour whose number of components is not 3, or that has a component
    below 0 or above 1, is rejected with the ValueError of the colour,
    whatever the mode. *)
Theorem color_code_invalid (c : pyval num) (f : string) :
  invalid_color c -> color_code c f = Raise InvalidColor.
Proof.
  destruct c as [| |s|l|l]; try reflexivity.
  intros [Hlen|(x & Hin & Hx)].
  - unfold color_code.
    destruct (Nat.eqb_spec (List.length l) 3); [contradiction|reflexivity].
  - destruct l as [|r [|g [|b [|z l]]]]; try reflexivity.
    rewrite color_code_list3.
    destruct Hx as [Hx|Hx].
    + now rewrite (below_zero_min [g; b] r x Hin Hx).
    + rewrite (above_one_max [g; b] r x Hin Hx).
      now destruct (num_lt (fold_min [g; b] r) (of_int 0)).
Qed.

End ColorCodeOrder.

(** C2. The range test misses a case. In [[nan, 2, 0]] the component 2 is
    above 1, so the colour is invalid; but [min] and [max] both return the
    [nan] they start from, [nan < 0] and [nan > 1] are both False, and
    [color_code] returns an operator string in both modes instead of
    raising the ValueError of the colour. *)
Theorem color_code_nan_bypass :
  invalid_color (PyList [PyNaN; PyInt 2; PyInt 0]) /\
  py_min [PyNaN; PyInt 2; PyInt 0] = Ok PyNaN /\
  py_max [PyNaN; PyInt 2; PyInt 0] = Ok PyNaN /\
  color_code (PyList [PyNaN; PyInt 2; PyInt 0]) "c" = Ok "nan 2 0 RG " /\
  color_code (PyList [PyNaN; PyInt 2; PyInt 0]) "f" = Ok "nan 2 0 rg ".
Proof.
  split; [|repeat split].
  right. exists (PyInt 2). split; [right; now left | right; reflexivity].
Qed.

(** ** The templates *)

Ltac split_tokens :=
  repeat first [ rewrite tokens_app_r by reflexivity
               | rewrite tokens_app_l by reflexivity ].

Lemma line_template_tokens (x0 y0 x1 y1 w j c dash color : string) :
  tokens (line_template x0 y0 x1 y1 w j c dash color) =
  (["q"] ++ tokens x0 ++ tokens y0 ++ ["m"] ++
   tokens x1 ++ tokens y1 ++ ["l"] ++
   tokens w ++ ["w"; "h"] ++ tokens j ++ ["j"] ++ tokens c ++ ["J"] ++
   tokens dash ++ tokens color ++ ["Q"])%list.
Proof.
  unfold line_template. split_tokens. reflexivity.
Qed.

Lemma rect_template_tokens (x y width height w j c dash color : string) :
  tokens (rect_template x y width height w j c dash color) =
  (["q"] ++ tokens x ++ tokens y ++ tokens width ++ tokens height ++ ["re"] ++
   tokens w ++ ["w"; "h"] ++ tokens j ++ ["j"] ++ tokens c ++ ["J"] ++
   tokens dash ++ tokens color ++ ["Q"])%list.
Proof.
  unfold rect_template. split_tokens. reflexivity.
Qed.

Lemma line_template_ascii (x0 y0 x1 y1 w j c dash color : string) :
  is_ascii x0 = true -> is_ascii y0 = true ->
  is_ascii x1 = true -> is_ascii y1 = true ->
  is_ascii w = true -> is_ascii j = true -> is_ascii c = true ->
  is_ascii dash = true -> is_ascii color = true ->
  is_ascii (line_template x0 y0 x1 y1 w j c dash color) = true.
Proof.
  intros A1 A2 A3 A4 A5 A6 A7 A8 A9. unfold line_template.
  rewrite !is_ascii_app, A1, A2, A3, A4, A5, A6, A7, A8, A9. reflexivity.
Qed.

Lemma rect_template_ascii (x y width height w j c dash color : string) :
  is_ascii x = true -> is_ascii y = true ->
  is_ascii width = true -> is_ascii height = true ->
  is_ascii w = true -> is_ascii j = true -> is_ascii c = true ->
  is_ascii dash = true -> is_ascii color = true ->
  is_ascii (rect_template x y width height w j c dash color) = true.
Proof.
  intros A1 A2 A3 A4 A5 A6 A7 A8 A9. unfold rect_template.
  rewrite !is_ascii_app, A1, A2, A3, A4, A5, A6, A7, A8, A9. reflexivity.
Qed.

(** The colour line is the last but one of either template. *)
Lemma line_template_tail (x0 y0 x1 y1 w j c dash : string) :
  exists head, forall color,
    line_template x0 y0 x1 y1 w j c dash color =
    head ++ color ++ NL ++ "Q" ++ NL.
Proof.
  exists (NL ++ "q" ++ NL ++ x0 ++ " " ++ y0 ++ " m" ++
          NL ++ x1 ++ " " ++ y1 ++ " l" ++ NL ++ w ++ " w" ++ NL ++ "h" ++
          NL ++ j ++ " j" ++ NL ++ c ++ " J" ++ NL ++ dash ++ NL).
  intros color. unfold line_template. rewrite !app_str_assoc. reflexivity.
Qed.

Lemma rect_template_tail (x y width height w j c dash : string) :
  exists head, forall color,
    rect_template x y width height w j c dash color =
    head ++ color ++ NL ++ "Q" ++ NL.
Proof.
  exists (NL ++ "q" ++ NL ++ x ++ " " ++ y ++ " " ++ width ++ " " ++ height ++
          " re" ++ NL ++ w ++ " w" ++ NL ++ "h" ++
          NL ++ j ++ " j" ++ NL ++ c ++ " J" ++ NL ++ dash ++ NL).
  intros color. unfold rect_template. rewrite !app_str_assoc. reflexivity.
Qed.

Lemma dash_str_tokens (dash : option string) :
  tokens (dash_str dash) = dash_tokens dash.
Proof.
  destruct dash as [d|]; [|reflexivity].
  simpl. now rewrite tokens_app_r by reflexivity.
Qed.

Lemma dash_str_ascii (dash : option string) :
  dash_ascii dash = true -> is_ascii (dash_str dash) = true.
Proof.
  destruct dash as [d|]; simpl; [|reflexivity].
  intros H. now rewrite is_ascii_app, H.
Qed.

(** ** draw_line and draw_rect *)

Section Drawing.

Context {num : Type} {N : PyNumber num}.

(** An exception of either method leaves the page as it was: the one
    [contents_add] is the last statement. *)
Lemma draw_line_raise_page (sp ep : list num) (bw : num) (stroke : pyval num)
    (dash : option string) (j c : num) (pg : page) (e : exn) :
  snd (draw_line sp ep bw stroke dash j c pg) = Raise e ->
  fst (draw_line sp ep bw stroke dash j c pg) = pg.
Proof.
  unfold draw_line, bind, lift, raise, contents_add.
  destruct (num_lt bw (of_int 0)); [reflexivity|].
  destruct (negb (in_012 j)); [reflexivity|].
  destruct (negb (in_012 c)); [reflexivity|].
  destruct (line_color_str stroke); [|reflexivity].
  destruct (subscript sp 0); [|reflexivity].
  destruct (subscript sp 1); [|reflexivity].
  destruct (subscript ep 0); [|reflexivity].
  destruct (subscript ep 1); [|reflexivity].
  destruct (bytes_ascii _); [discriminate|reflexivity].
Qed.

Lemma draw_rect_raise_page (pt : list num) (w h bw : num) (stroke : pyval num)
    (dash : option string) (fill : pyval num) (j c : num) (pg : page)
    (e : exn) :
  snd (draw_rect pt w h bw stroke dash fill j c pg) = Raise e ->
  fst (draw_rect pt w h bw stroke dash fill j c pg) = pg.
Proof.
  unfold draw_rect, bind, lift, raise, contents_add.
  destruct (num_lt bw (of_int 0)); [reflexivity|].
  destruct (negb (in_012 j)); [reflexivity|].
  destruct (negb (in_012 c)); [reflexivity|].
  destruct (rect_color_str fill stroke); [|reflexivity].
  destruct (subscript pt 0); [|reflexivity].
  destruct (subscript pt 1); [|reflexivity].
  destruct (bytes_ascii _); [discriminate|reflexivity].
Qed.

(** The errors of the colour blocks are the ValueError of the colour. *)
Lemma line_color_str_raises (stroke : pyval num) (e : exn) :
  line_color_str stroke = Raise e -> e = InvalidColor.
Proof.
  unfold line_color_str, rbind.
  destruct (is_not_None stroke).
  - destruct (color_code stroke "c") eqn:E; [discriminate|].
    intros [= <-]. exact (color_code_raises _ _ _ E).
  - destruct (color_code BLACK "c") eqn:E; [discriminate|].
    intros [= <-]. exact (color_code_raises _ _ _ E).
Qed.

Lemma rect_color_str_raises (fill stroke : pyval num) (e : exn) :
  rect_color_str fill stroke = Raise e -> e = InvalidColor.
Proof.
  unfold rect_color_str, rbind.
  destruct (is_not_None fill), (is_not_None stroke); cbn [andb];
    repeat match goal with
           | |- context [color_code ?v ?f] =>
               let E := fresh "E" in
               destruct (color_code v f) eqn:E;
               [|apply color_code_raises in E; subst]
           end;
    try discriminate; congruence.
Qed.

(** Every branch of the rectangle's colour block ends with [S]. *)
Lemma rect_color_str_ends_S (fill stroke : pyval num) (blk : string) :
  rect_color_str fill stroke = Ok blk -> exists pre, blk = pre ++ "S".
Proof.
  unfold rect_color_str, rbind.
  destruct (if is_not_None fill && is_not_None stroke then _ else _)
    as [pre|]; [|discriminate].
  intros [= <-]. now exists pre.
Qed.

End Drawing.

Section DrawingLaws.

Context {num : Type} {N : PyNumber num} {L : PyNumberLaws num}.

Lemma num_str_ascii (a : num) : is_ascii (num_str a) = true.
Proof. apply num_word_ascii, str_word. Qed.

Lemma num_str_tokens (a : num) : tokens (num_str a) = [num_str a].
Proof. apply tokens_word, str_word. Qed.

Lemma color_op_ascii (r g b : num) (op : string) :
  is_ascii op = true -> is_ascii (color_op r g b op) = true.
Proof.
  intros H. unfold color_op.
  now rewrite !is_ascii_app, !num_str_ascii, H.
Qed.

Lemma color_op_tokens (r g b : num) (op rest : string) :
  tokens (color_op r g b op ++ rest) =
  (num_str r :: num_str g :: num_str b :: tokens op ++ tokens rest)%list.
Proof.
  unfold color_op. rewrite !app_str_assoc. split_tokens.
  rewrite !num_str_tokens. reflexivity.
Qed.

Lemma in_unit_zero : in_unit (of_int 0 : num) = true.
Proof.
  unfold in_unit. now rewrite !lt_of_int.
Qed.

Lemma black_code :
  color_code (BLACK : pyval num) "c" =
  Ok (color_op (of_int 0) (of_int 0) (of_int 0) "RG").
Proof.
  unfold BLACK.
  now rewrite (color_code_in_unit _ _ _ "c" in_unit_zero in_unit_zero
                 in_unit_zero).
Qed.

Lemma black_op : color_op (of_int 0 : num) (of_int 0) (of_int 0) "RG" = "0 0 0 RG ".
Proof.
  unfold color_op. now rewrite !str_of_int.
Qed.

Lemma line_color_str_rgb (stroke : pyval num) (r g b : num) :
  stroke_rgb stroke r g b ->
  line_color_str stroke = Ok (color_op r g b "RG" ++ "S").
Proof.
  unfold line_color_str.
  intros [(-> & Hr & Hg & Hb)|(-> & -> & -> & ->)]; cbn [is_not_None].
  - now rewrite (color_code_in_unit r g b "c" Hr Hg Hb).
  - now rewrite black_code.
Qed.

(** A call that passes the guards, has its colour string and two
    coordinates per point, and encodes as ASCII, puts exactly the filled
    template after the streams of the page. *)
Lemma draw_line_run (x0 y0 x1 y1 : num) (sp ep : list num) (bw : num)
    (stroke : pyval num) (dash : option string) (j c : num) (pg : page)
    (col : string) :
  style_ok bw j c ->
  line_color_str stroke = Ok col ->
  is_ascii col = true ->
  dash_ascii dash = true ->
  draw_line (x0 :: y0 :: sp) (x1 :: y1 :: ep) bw stroke dash j c pg =
  ((pg ++ [line_template (num_str x0) (num_str y0) (num_str x1) (num_str y1)
             (num_str bw) (num_str j) (num_str c) (dash_str dash) col])%list,
   Ok tt).
Proof.
  intros (Hbw & Hj & Hc) Hcol Acol Adash.
  unfold draw_line, bind, lift, contents_add, bytes_ascii.
  rewrite Hbw, Hj, Hc, Hcol. cbn [negb subscript nth_error].
  rewrite line_template_ascii;
    auto using num_str_ascii, dash_str_ascii.
Qed.

Lemma draw_rect_run (x y : num) (pt : list num) (w h bw : num)
    (stroke : pyval num) (dash : option string) (fill : pyval num)
    (j c : num) (pg : page) (col : string) :
  style_ok bw j c ->
  rect_color_str fill stroke = Ok col ->
  is_ascii col = true ->
  dash_ascii dash = true ->
  draw_rect (x :: y :: pt) w h bw stroke dash fill j c pg =
  ((pg ++ [rect_template (num_str x) (num_str y) (num_str w) (num_str h)
             (num_str bw) (num_str j) (num_str c) (dash_str dash) col])%list,
   Ok tt).
Proof.
  intros (Hbw & Hj & Hc) Hcol Acol Adash.
  unfold draw_rect, bind, lift, contents_add, bytes_ascii.
  rewrite Hbw, Hj, Hc, Hcol. cbn [negb subscript nth_error].
  rewrite rect_template_ascii;
    auto using num_str_ascii, dash_str_ascii.
Qed.

(** C5, as the code has it. A valid [draw_line] call puts one fragment
    after the streams of the page, and its tokens are, in this order: [q];
    the start point and [m];
    the end point and [l]; the width and [w]; [h]; the join style and [j];
    the cap style and [J]; the dash pattern and [d] if one is given (if
    none is given the dash line of the fragment is one blank and has no
    token); the three components of the stroke colour, [RG] and [S]; [Q].
    A fill operator can only occur inside the caller's dash pattern, which
    the code copies unread. *)
Theorem draw_line_fragment (x0 y0 x1 y1 : num) (sp ep : list num) (bw : num)
    (stroke : pyval num) (dash : option string) (j c : num) (pg : page)
    (r g b : num) :
  style_ok bw j c ->
  stroke_rgb stroke r g b ->
  dash_ascii dash = true ->
  let frag :=
    line_template (num_str x0) (num_str y0) (num_str x1) (num_str y1)
      (num_str bw) (num_str j) (num_str c) (dash_str dash)
      (color_op r g b "RG" ++ "S") in
  draw_line (x0 :: y0 :: sp) (x1 :: y1 :: ep) bw stroke dash j c pg =
    ((pg ++ [frag])%list, Ok tt) /\
  tokens frag =
    (["q"; num_str x0; num_str y0; "m"; num_str x1; num_str y1; "l";
      num_str bw; "w"; "h"; num_str j; "j"; num_str c; "J"] ++
     dash_tokens dash ++
     [num_str r; num_str g; num_str b; "RG"; "S"; "Q"])%list /\
  (dash = None -> dash_str dash = " " /\ dash_tokens dash = []) /\
  (forall op, In op fill_operators -> In op (tokens frag) ->
              exists d, dash = Some d /\ In op (tokens d)).
Proof.
  intros Hstyle Hrgb Hdash frag.
  assert (Htok : tokens frag =
    (["q"; num_str x0; num_str y0; "m"; num_str x1; num_str y1; "l";
      num_str bw; "w"; "h"; num_str j; "j"; num_str c; "J"] ++
     dash_tokens dash ++
     [num_str r; num_str g; num_str b; "RG"; "S"; "Q"])%list).
  { unfold frag. rewrite line_template_tokens, color_op_tokens.
    rewrite dash_str_tokens, !num_str_tokens. cbn [app].
    reflexivity. }
  repeat split.
  - apply draw_line_run; trivial.
    + now apply line_color_str_rgb.
    + rewrite is_ascii_app, color_op_ascii; reflexivity.
  - exact Htok.
  - now subst dash.
  - now subst dash.
  - intros op Hop Hin. rewrite Htok in Hin.
    assert (Hnum : forall a : num, op <> num_str a).
    { intros a ->. exact (num_word_not_fill _ (str_word a) Hop). }
    assert (Hlit : forall s, In s ["q"; "m"; "l"; "w"; "h"; "j"; "J"; "d";
                                   "RG"; "S"; "Q"] -> op <> s).
    { intros s Hs ->. unfold fill_operators in Hop. simpl in Hop, Hs.
      repeat (destruct Hs as [<-|Hs];
              [repeat (destruct Hop as [Hop|Hop]; [discriminate Hop|]);
               exact Hop|]).
      exact Hs. }
    apply in_app_or in Hin. destruct Hin as [Hin|Hin].
    { simpl in Hin.
      repeat (destruct Hin as [Hin|Hin];
              [symmetry in Hin;
               first [ now apply Hnum in Hin
                     | apply Hlit in Hin; [contradiction|simpl; tauto] ]|]).
      contradiction. }
    apply in_app_or in Hin. destruct Hin as [Hin|Hin].
    + destruct dash as [d|]; [|contradiction].
      unfold dash_tokens in Hin. apply in_app_or in Hin.
      destruct Hin as [Hin|[Hin|[]]]; [now exists d|].
      symmetry in Hin. apply Hlit in Hin; [contradiction|simpl; tauto].
    + simpl in Hin.
      repeat (destruct Hin as [Hin|Hin];
              [symmetry in Hin;
               first [ now apply Hnum in Hin
                     | apply Hlit in Hin; [contradiction|simpl; tauto] ]|]).
      contradiction.
Qed.

(** C8. With no stroke colour given, a valid [draw_line] call emits the
    black stroke colour: its fragment has ["0 0 0 RG "] right before the
    [S] of its colour line. So does a valid [draw_rect] call with neither
    colour given, where a line feed stands between the operator and [S]. *)
Theorem default_black_stroke (x0 y0 x1 y1 : num) (sp ep : list num)
    (x y : num) (pt : list num) (w h bw : num) (dash : option string)
    (j c : num) (pg : page) :
  style_ok bw j c ->
  dash_ascii dash = true ->
  (exists pre,
     draw_line (x0 :: y0 :: sp) (x1 :: y1 :: ep) bw PyNone dash j c pg =
     ((pg ++ [(pre ++ "0 0 0 RG " ++ "S" ++ NL ++ "Q" ++ NL)%string])%list,
      Ok tt)) /\
  (exists pre,
     draw_rect (x :: y :: pt) w h bw PyNone dash PyNone j c pg =
     ((pg ++ [(pre ++ "0 0 0 RG " ++ LF ++ "S" ++ NL ++ "Q" ++ NL)%string])%list,
      Ok tt)).
Proof.
  intros Hstyle Hdash. split.
  - destruct (line_template_tail (num_str x0) (num_str y0) (num_str x1)
                (num_str y1) (num_str bw) (num_str j) (num_str c)
                (dash_str dash)) as [head Hhead].
    exists head.
    rewrite (draw_line_run x0 y0 x1 y1 sp ep bw PyNone dash j c pg
               ("0 0 0 RG " ++ "S") Hstyle); trivial.
    + now rewrite Hhead.
    + unfold line_color_str. cbn [is_not_None].
      now rewrite black_code, black_op.
  - destruct (rect_template_tail (num_str x) (num_str y) (num_str w)
                (num_str h) (num_str bw) (num_str j) (num_str c)
                (dash_str dash)) as [head Hhead].
    exists head.
    rewrite (draw_rect_run x y pt w h bw PyNone dash PyNone j c pg
               (("0 0 0 RG " ++ LF) ++ "S") Hstyle); trivial.
    + now rewrite Hhead.
    + unfold rect_color_str. cbn [is_not_None andb].
      now rewrite black_code, black_op.
Qed.

(** C4. With a valid fill colour and a valid stroke colour, a valid
    [draw_rect] call puts one fragment after the streams of the page whose
    colour block is, in this order: the fill colour and [rg], the stroke
    colour and [RG], [B], and then [S]. *)
Theorem draw_rect_fill_and_stroke (x y : num) (pt : list num) (w h bw : num)
    (stroke : pyval num) (dash : option string) (fill : pyval num)
    (j c : num) (pg : page) (fr fg fb sr sg sb : num) :
  style_ok bw j c ->
  valid_color fill fr fg fb ->
  valid_color stroke sr sg sb ->
  dash_ascii dash = true ->
  let block :=
    (color_op fr fg fb "rg" ++ color_op sr sg sb "RG" ++ "B" ++ LF) ++ "S" in
  let frag :=
    rect_template (num_str x) (num_str y) (num_str w) (num_str h)
      (num_str bw) (num_str j) (num_str c) (dash_str dash) block in
  draw_rect (x :: y :: pt) w h bw stroke dash fill j c pg =
    ((pg ++ [frag])%list, Ok tt) /\
  tokens block =
    [num_str fr; num_str fg; num_str fb; "rg";
     num_str sr; num_str sg; num_str sb; "RG"; "B"; "S"] /\
  tokens frag =
    (["q"; num_str x; num_str y; num_str w; num_str h; "re";
      num_str bw; "w"; "h"; num_str j; "j"; num_str c; "J"] ++
     dash_tokens dash ++
     [num_str fr; num_str fg; num_str fb; "rg";
      num_str sr; num_str sg; num_str sb; "RG"; "B"; "S"; "Q"])%list.
Proof.
  intros Hstyle (-> & Hfr & Hfg & Hfb) (-> & Hsr & Hsg & Hsb) Hdash block frag.
  assert (Hblock : tokens block =
    [num_str fr; num_str fg; num_str fb; "rg";
     num_str sr; num_str sg; num_str sb; "RG"; "B"; "S"]).
  { unfold block. rewrite !app_str_assoc, !color_op_tokens. reflexivity. }
  repeat split.
  - apply draw_rect_run; trivial.
    + unfold rect_color_str. cbn [is_not_None andb].
      rewrite (color_code_in_unit fr fg fb "f" Hfr Hfg Hfb).
      now rewrite (color_code_in_unit sr sg sb "c" Hsr Hsg Hsb).
    + unfold block. rewrite !is_ascii_app, !color_op_ascii; reflexivity.
  - exact Hblock.
  - unfold frag. rewrite rect_template_tokens, Hblock.
    rewrite dash_str_tokens, !num_str_tokens. cbn [app].
    reflexivity.
Qed.

(** C1, as the code has it. With only a valid fill colour given, the
    colour block of [draw_rect] is the fill colour and [rg], then [f], and
    then [S] all the same: the fragment does contain [S]. The [S] is put
    after the colour block in every branch, the fill-only one included. *)
Theorem draw_rect_fill_only (x y : num) (pt : list num) (w h bw : num)
    (dash : option string) (fill : pyval num) (j c : num) (pg : page)
    (r g b : num) :
  style_ok bw j c ->
  valid_color fill r g b ->
  dash_ascii dash = true ->
  let block := (color_op r g b "rg" ++ "f" ++ LF) ++ "S" in
  let frag :=
    rect_template (num_str x) (num_str y) (num_str w) (num_str h)
      (num_str bw) (num_str j) (num_str c) (dash_str dash) block in
  draw_rect (x :: y :: pt) w h bw PyNone dash fill j c pg =
    ((pg ++ [frag])%list, Ok tt) /\
  tokens block = [num_str r; num_str g; num_str b; "rg"; "f"; "S"] /\
  tokens frag =
    (["q"; num_str x; num_str y; num_str w; num_str h; "re";
      num_str bw; "w"; "h"; num_str j; "j"; num_str c; "J"] ++
     dash_tokens dash ++
     [num_str r; num_str g; num_str b; "rg"; "f"; "S"; "Q"])%list /\
  In "S" (tokens frag) /\
  (forall fill' stroke' blk,
     rect_color_str fill' stroke' = Ok blk -> exists pre, blk = pre ++ "S").
Proof.
  intros Hstyle (-> & Hr & Hg & Hb) Hdash block frag.
  assert (Hblock : tokens block =
                   [num_str r; num_str g; num_str b; "rg"; "f"; "S"]).
  { unfold block. rewrite !app_str_assoc, !color_op_tokens. reflexivity. }
  assert (Hfrag : tokens frag =
    (["q"; num_str x; num_str y; num_str w; num_str h; "re";
      num_str bw; "w"; "h"; num_str j; "j"; num_str c; "J"] ++
     dash_tokens dash ++
     [num_str r; num_str g; num_str b; "rg"; "f"; "S"; "Q"])%list).
  { unfold frag. rewrite rect_template_tokens, Hblock.
    rewrite dash_str_tokens, !num_str_tokens. reflexivity. }
  repeat split.
  - apply draw_rect_run; trivial.
    + unfold rect_color_str. cbn [is_not_None andb].
      now rewrite (color_code_in_unit r g b "f" Hr Hg Hb).
    + unfold block. rewrite !is_ascii_app, !color_op_ascii; reflexivity.
  - exact Hblock.
  - exact Hfrag.
  - rewrite Hfrag. apply in_or_app. right. apply in_or_app. right.
    do 5 right. now left.
  - intros fill' stroke' blk. apply rect_color_str_ends_S.
Qed.

End DrawingLaws.

(** ** Validation *)

Section Validation.

Context {num : Type} {N : PyNumber num}.

Lemma InvalidColor_not_parameter : ~ InvalidParameter InvalidColor.
Proof.
  intros [H|[H|H]]; discriminate H.
Qed.

Lemma draw_line_not_parameter (sp ep : list num) (bw : num)
    (stroke : pyval num) (dash : option string) (j c : num) (pg : page)
    (e : exn) :
  style_ok bw j c -> InvalidParameter e ->
  snd (draw_line sp ep bw stroke dash j c pg) <> Raise e.
Proof.
  intros (Hbw & Hj & Hc) He.
  unfold draw_line, bind, lift, contents_add, bytes_ascii, subscript.
  rewrite Hbw, Hj, Hc. cbn [negb].
  destruct (line_color_str stroke) as [col|e0] eqn:E.
  - repeat match goal with
           | |- context [nth_error ?l ?i] => destruct (nth_error l i)
           | |- context [is_ascii ?s] => destruct (is_ascii s)
           end; cbn [snd]; try discriminate;
      intros [= <-]; destruct He as [H|[H|H]]; discriminate H.
  - apply line_color_str_raises in E. subst e0. cbn [snd].
    intros [= <-]. now apply InvalidColor_not_parameter.
Qed.

Lemma draw_rect_not_parameter (pt : list num) (w h bw : num)
    (stroke : pyval num) (dash : option string) (fill : pyval num)
    (j c : num) (pg : page) (e : exn) :
  style_ok bw j c -> InvalidParameter e ->
  snd (draw_rect pt w h bw stroke dash fill j c pg) <> Raise e.
Proof.
  intros (Hbw & Hj & Hc) He.
  unfold draw_rect, bind, lift, contents_add, bytes_ascii, subscript.
  rewrite Hbw, Hj, Hc. cbn [negb].
  destruct (rect_color_str fill stroke) as [col|e0] eqn:E.
  - repeat match goal with
           | |- context [nth_error ?l ?i] => destruct (nth_error l i)
           | |- context [is_ascii ?s] => destruct (is_ascii s)
           end; cbn [snd]; try discriminate;
      intros [= <-]; destruct He as [H|[H|H]]; discriminate H.
  - apply rect_color_str_raises in E. subst e0. cbn [snd].
    intros [= <-]. now apply InvalidColor_not_parameter.
Qed.

(** C3. [draw_line] and [draw_rect] raise the ValueError of the border
    width when [border_width < 0]; they raise a ValueError of a parameter
    when the join style or the cap style is not among 0, 1 and 2 (that of
    the border width if it is negative as well); and with
    [border_width >= 0] and both styles among 0, 1 and 2 neither raises a
    ValueError of a parameter. The page is as it was in each failure. *)
Theorem style_validation (sp ep pt : list num) (w h bw : num)
    (stroke fill : pyval num) (dash : option string) (j c : num)
    (pg : page) :
  (num_lt bw (of_int 0) = true ->
   draw_line sp ep bw stroke dash j c pg =
     (pg, Raise (ValueError msg_border_width)) /\
   draw_rect pt w h bw stroke dash fill j c pg =
     (pg, Raise (ValueError msg_border_width))) /\
  (in_012 j = false \/ in_012 c = false ->
   exists e, InvalidParameter e /\
     draw_line sp ep bw stroke dash j c pg = (pg, Raise e) /\
     draw_rect pt w h bw stroke dash fill j c pg = (pg, Raise e)) /\
  (style_ok bw j c ->
   forall e, InvalidParameter e ->
     snd (draw_line sp ep bw stroke dash j c pg) <> Raise e /\
     snd (draw_rect pt w h bw stroke dash fill j c pg) <> Raise e).
Proof.
  split; [|split].
  - intros Hbw. unfold draw_line, draw_rect, raise. now rewrite Hbw.
  - intros Hjc. unfold draw_line, draw_rect, raise.
    destruct (num_lt bw (of_int 0)).
    { exists (ValueError msg_border_width). unfold InvalidParameter. auto. }
    destruct (in_012 j); cbn [negb].
    + destruct Hjc as [Hj|Hc]; [discriminate|]. rewrite Hc. cbn [negb].
      exists (ValueError msg_line_cap). unfold InvalidParameter. auto.
    + exists (ValueError msg_line_join). unfold InvalidParameter. auto.
  - intros Hstyle e He. split.
    + now apply draw_line_not_parameter.
    + now apply draw_rect_not_parameter.
Qed.

(** C7. A [draw_line] or [draw_rect] call that raises, be it a ValueError
    of a parameter, the ValueError of a colour or any other exception,
    leaves the page as it was: nothing was handed to [contents_add]. *)
Theorem validation_aborts (sp ep pt : list num) (w h bw : num)
    (stroke fill : pyval num) (dash : option string) (j c : num)
    (pg : page) (e : exn) :
  (snd (draw_line sp ep bw stroke dash j c pg) = Raise e ->
   fst (draw_line sp ep bw stroke dash j c pg) = pg) /\
  (snd (draw_rect pt w h bw stroke dash fill j c pg) = Raise e ->
   fst (draw_rect pt w h bw stroke dash fill j c pg) = pg).
Proof.
  split.
  - apply draw_line_raise_page.
  - apply draw_rect_raise_page.
Qed.

End Validation.

(** * Further properties *)

Lemma ends_ws_app (a b : string) :
  ends_ws b = true -> ends_ws (a ++ b) = true.
Proof.
  intros Hb. induction a as [|x a IH]; [exact Hb|].
  cbn [append ends_ws].
  destruct (a ++ b) as [|y t]; [discriminate IH | exact IH].
Qed.

(** ** color_code returns well-formed operators only *)

Section ColorCodeSound.

Context {num : Type} {N : PyNumber num}.

Lemma color_code_ok_shape (c : pyval num) (f s : string) :
  color_code c f = Ok s ->
  exists r g b, c = PyList [r; g; b] /\
    s = color_op r g b (if String.eqb f "c" then "RG" else "rg").
Proof.
  destruct c as [| |t|l|l]; try discriminate.
  destruct l as [|r [|g [|b [|x l]]]]; try discriminate.
  rewrite color_code_list3.
  destruct (num_lt _ (of_int 0)); [discriminate|].
  destruct (num_lt (of_int 1) _); [discriminate|].
  intros [= <-]. now exists r, g, b.
Qed.

Lemma color_op_ends_ws (r g b : num) (op : string) :
  ends_ws (color_op r g b op) = true.
Proof.
  unfold color_op. repeat apply ends_ws_app. reflexivity.
Qed.

(** X1. When [color_code] returns a string, the colour was a list of
    exactly three components, and the string is these three components as
    the f-string prints them, then [RG] (mode ["c"]) or [rg] (any other
    mode), with one blank between them and one blank at the end. Because
    of this last blank, whatever is put after the string starts a new
    token. *)
Theorem color_code_sound (c : pyval num) (f s : string) :
  color_code c f = Ok s ->
  exists r g b, c = PyList [r; g; b] /\
    s = num_str r ++ " " ++ num_str g ++ " " ++ num_str b ++ " " ++
        (if String.eqb f "c" then "RG" else "rg") ++ " " /\
    ends_ws s = true /\
    forall rest, tokens (s ++ rest) = (tokens s ++ tokens rest)%list.
Proof.
  intros H. destruct (color_code_ok_shape c f s H) as (r & g & b & -> & ->).
  exists r, g, b. split; [reflexivity|]. split; [reflexivity|].
  split; [apply color_op_ends_ws|].
  intros rest. apply tokens_app_l, color_op_ends_ws.
Qed.

End ColorCodeSound.

(** ** What a draw call can do to the page *)

Lemma line_template_bracket (x0 y0 x1 y1 w j c dash color : string) :
  exists mid,
    tokens (line_template x0 y0 x1 y1 w j c dash color) =
    ("q" :: mid ++ ["Q"])%list.
Proof.
  exists (tokens x0 ++ tokens y0 ++ ["m"] ++ tokens x1 ++ tokens y1 ++ ["l"] ++
          tokens w ++ ["w"; "h"] ++ tokens j ++ ["j"] ++ tokens c ++ ["J"] ++
          tokens dash ++ tokens color)%list.
  rewrite line_template_tokens. cbn [app]. f_equal.
  repeat (rewrite <- app_assoc; cbn [app]). reflexivity.
Qed.

Lemma rect_template_bracket (x y width height w j c dash color : string) :
  exists mid,
    tokens (rect_template x y width height w j c dash color) =
    ("q" :: mid ++ ["Q"])%list.
Proof.
  exists (tokens x ++ tokens y ++ tokens width ++ tokens height ++ ["re"] ++
          tokens w ++ ["w"; "h"] ++ tokens j ++ ["j"] ++ tokens c ++ ["J"] ++
          tokens dash ++ tokens color)%list.
  rewrite rect_template_tokens. cbn [app]. f_equal.
  repeat (rewrite <- app_assoc; cbn [app]). reflexivity.
Qed.

Lemma is_ascii_app_false_l (a b : string) :
  is_ascii a = false -> is_ascii (a ++ b) = false.
Proof.
  intros H. now rewrite is_ascii_app, H.
Qed.

Lemma is_ascii_app_false_r (a b : string) :
  is_ascii b = false -> is_ascii (a ++ b) = false.
Proof.
  intros H. rewrite is_ascii_app, H. apply andb_false_r.
Qed.

Lemma line_template_not_ascii (x0 y0 x1 y1 w j c dash color : string) :
  is_ascii dash = false ->
  is_ascii (line_template x0 y0 x1 y1 w j c dash color) = false.
Proof.
  intros H. unfold line_template.
  repeat first [ apply is_ascii_app_false_l; exact H
               | apply is_ascii_app_false_r ].
Qed.

Lemma rect_template_not_ascii (x y width height w j c dash color : string) :
  is_ascii dash = false ->
  is_ascii (rect_template x y width height w j c dash color) = false.
Proof.
  intros H. unfold rect_template.
  repeat first [ apply is_ascii_app_false_l; exact H
               | apply is_ascii_app_false_r ].
Qed.

Section Outcome.

Context {num : Type} {N : PyNumber num}.

Ltac raised := right; eexists; reflexivity.

Lemma draw_line_outcome (sp ep : list num) (bw : num) (stroke : pyval num)
    (dash : option string) (j c : num) (pg : page) :
  (exists frag mid,
     draw_line sp ep bw stroke dash j c pg = ((pg ++ [frag])%list, Ok tt) /\
     is_ascii frag = true /\ tokens frag = ("q" :: mid ++ ["Q"])%list) \/
  (exists e, draw_line sp ep bw stroke dash j c pg = (pg, Raise e)).
Proof.
  unfold draw_line, bind, lift, raise, contents_add, bytes_ascii, subscript.
  destruct (num_lt bw (of_int 0)); [raised|].
  destruct (negb (in_012 j)); [raised|].
  destruct (negb (in_012 c)); [raised|].
  destruct (line_color_str stroke) as [col|e] eqn:E.
  2:{ raised. }
  destruct (nth_error sp 0) as [x0|]; [|raised].
  destruct (nth_error sp 1) as [y0|]; [|raised].
  destruct (nth_error ep 0) as [x1|]; [|raised].
  destruct (nth_error ep 1) as [y1|]; [|raised].
  destruct (is_ascii (line_template _ _ _ _ _ _ _ _ _)) eqn:A; [|raised].
  left.
  destruct (line_template_bracket (num_str x0) (num_str y0) (num_str x1)
              (num_str y1) (num_str bw) (num_str j) (num_str c)
              (dash_str dash) col) as [mid Hmid].
  eexists. exists mid. split; [reflexivity|]. now split.
Qed.

Lemma draw_rect_outcome (pt : list num) (w h bw : num) (stroke : pyval num)
    (dash : option string) (fill : pyval num) (j c : num) (pg : page) :
  (exists frag mid,
     draw_rect pt w h bw stroke dash fill j c pg =
       ((pg ++ [frag])%list, Ok tt) /\
     is_ascii frag = true /\ tokens frag = ("q" :: mid ++ ["Q"])%list) \/
  (exists e, draw_rect pt w h bw stroke dash fill j c pg = (pg, Raise e)).
Proof.
  unfold draw_rect, bind, lift, raise, contents_add, bytes_ascii, subscript.
  destruct (num_lt bw (of_int 0)); [raised|].
  destruct (negb (in_012 j)); [raised|].
  destruct (negb (in_012 c)); [raised|].
  destruct (rect_color_str fill stroke) as [col|e] eqn:E.
  2:{ raised. }
  destruct (nth_error pt 0) as [x|]; [|raised].
  destruct (nth_error pt 1) as [y|]; [|raised].
  destruct (is_ascii (rect_template _ _ _ _ _ _ _ _ _)) eqn:A; [|raised].
  left.
  destruct (rect_template_bracket (num_str x) (num_str y) (num_str w)
              (num_str h) (num_str bw) (num_str j) (num_str c)
              (dash_str dash) col) as [mid Hmid].
  eexists. exists mid. split; [reflexivity|]. now split.
Qed.

(** X2. [draw_line] and [draw_rect] do one of two things. Either they put
    exactly one stream after the streams of the page, which stay as they
    were; this stream is ASCII, its first token is [q] and its last token
    is [Q]. Or they raise and leave the page as it was. *)
Theorem draw_outcomes (sp ep pt : list num) (w h bw : num)
    (stroke fill : pyval num) (dash : option string) (j c : num)
    (pg : page) :
  ((exists frag mid,
      draw_line sp ep bw stroke dash j c pg = ((pg ++ [frag])%list, Ok tt) /\
      is_ascii frag = true /\ tokens frag = ("q" :: mid ++ ["Q"])%list) \/
   (exists e, draw_line sp ep bw stroke dash j c pg = (pg, Raise e))) /\
  ((exists frag mid,
      draw_rect pt w h bw stroke dash fill j c pg =
        ((pg ++ [frag])%list, Ok tt) /\
      is_ascii frag = true /\ tokens frag = ("q" :: mid ++ ["Q"])%list) \/
   (exists e, draw_rect pt w h bw stroke dash fill j c pg = (pg, Raise e))).
Proof.
  split; [apply draw_line_outcome | apply draw_rect_outcome].
Qed.

Lemma draw_line_frame (sp ep : list num) (bw : num) (stroke : pyval num)
    (dash : option string) (j c : num) (pg : page) :
  draw_line sp ep bw stroke dash j c pg =
  ((pg ++ fst (draw_line sp ep bw stroke dash j c []))%list,
   snd (draw_line sp ep bw stroke dash j c [])).
Proof.
  unfold draw_line, bind, lift, raise, contents_add, bytes_ascii, subscript.
  destruct (num_lt bw (of_int 0)); cbn [fst snd]; rewrite ?app_nil_r;
    [reflexivity|].
  destruct (negb (in_012 j)); cbn [fst snd]; rewrite ?app_nil_r;
    [reflexivity|].
  destruct (negb (in_012 c)); cbn [fst snd]; rewrite ?app_nil_r;
    [reflexivity|].
  destruct (line_color_str stroke); cbn [fst snd]; rewrite ?app_nil_r;
    [|reflexivity].
  destruct (nth_error sp 0); cbn [fst snd]; rewrite ?app_nil_r;
    [|reflexivity].
  destruct (nth_error sp 1); cbn [fst snd]; rewrite ?app_nil_r;
    [|reflexivity].
  destruct (nth_error ep 0); cbn [fst snd]; rewrite ?app_nil_r;
    [|reflexivity].
  destruct (nth_error ep 1); cbn [fst snd]; rewrite ?app_nil_r;
    [|reflexivity].
  destruct (is_ascii _); cbn [fst snd]; rewrite ?app_nil_r; reflexivity.
Qed.

Lemma draw_rect_frame (pt : list num) (w h bw : num) (stroke : pyval num)
    (dash : option string) (fill : pyval num) (j c : num) (pg : page) :
  draw_rect pt w h bw stroke dash fill j c pg =
  ((pg ++ fst (draw_rect pt w h bw stroke dash fill j c []))%list,
   snd (draw_rect pt w h bw stroke dash fill j c [])).
Proof.
  unfold draw_rect, bind, lift, raise, contents_add, bytes_ascii, subscript.
  destruct (num_lt bw (of_int 0)); cbn [fst snd]; rewrite ?app_nil_r;
    [reflexivity|].
  destruct (negb (in_012 j)); cbn [fst snd]; rewrite ?app_nil_r;
    [reflexivity|].
  destruct (negb (in_012 c)); cbn [fst snd]; rewrite ?app_nil_r;
    [reflexivity|].
  destruct (rect_color_str fill stroke); cbn [fst snd]; rewrite ?app_nil_r;
    [|reflexivity].
  destruct (nth_error pt 0); cbn [fst snd]; rewrite ?app_nil_r;
    [|reflexivity].
  destruct (nth_error pt 1); cbn [fst snd]; rewrite ?app_nil_r;
    [|reflexivity].
  destruct (is_ascii _); cbn [fst snd]; rewrite ?app_nil_r; reflexivity.
Qed.

End Outcome.

Section Composition.

Context {num : Type} {N : PyNumber num}.

(** X3. A draw call does not read the page: what it puts after the streams
    of a page, and what it returns or raises, is what it does on a page
    without streams. *)
Theorem draw_frame (sp ep pt : list num) (w h bw : num)
    (stroke fill : pyval num) (dash : option string) (j c : num)
    (pg : page) :
  draw_line sp ep bw stroke dash j c pg =
    ((pg ++ fst (draw_line sp ep bw stroke dash j c []))%list,
     snd (draw_line sp ep bw stroke dash j c [])) /\
  draw_rect pt w h bw stroke dash fill j c pg =
    ((pg ++ fst (draw_rect pt w h bw stroke dash fill j c []))%list,
     snd (draw_rect pt w h bw stroke dash fill j c [])).
Proof.
  split; [apply draw_line_frame | apply draw_rect_frame].
Qed.

(** X4. The guards run in the order border width, join style, cap style,
    and the first that fails names the error: with a border width that is
    not negative, a join style outside 0, 1, 2 raises the ValueError of
    the join style whatever the cap style is; with a good join style too, a
    cap style outside 0, 1, 2 raises the ValueError of the cap style. *)
Theorem guard_order (sp ep pt : list num) (w h bw : num)
    (stroke fill : pyval num) (dash : option string) (j c : num)
    (pg : page) :
  num_lt bw (of_int 0) = false ->
  (in_012 j = false ->
   draw_line sp ep bw stroke dash j c pg =
     (pg, Raise (ValueError msg_line_join)) /\
   draw_rect pt w h bw stroke dash fill j c pg =
     (pg, Raise (ValueError msg_line_join))) /\
  (in_012 j = true -> in_012 c = false ->
   draw_line sp ep bw stroke dash j c pg =
     (pg, Raise (ValueError msg_line_cap)) /\
   draw_rect pt w h bw stroke dash fill j c pg =
     (pg, Raise (ValueError msg_line_cap))).
Proof.
  intros Hbw. unfold draw_line, draw_rect, raise. rewrite Hbw. split.
  - intros Hj. now rewrite Hj.
  - intros Hj Hc. now rewrite Hj, Hc.
Qed.

(** X5. One call after the other on the same page: if the first call
    raises, the second does not run and the page is as it was; if the first
    call returns, the page gets the stream of the first and then what the
    second puts, and the outcome is that of the second. So the streams
    stand in the order of the calls, and a call that raises keeps what was
    drawn before it. *)
Theorem draw_sequence (pt : list num) (w h bw1 : num)
    (stroke1 fill1 : pyval num) (dash1 : option string) (j1 c1 : num)
    (sp ep : list num) (bw2 : num) (stroke2 : pyval num)
    (dash2 : option string) (j2 c2 : num) (pg : page) :
  let first := draw_rect pt w h bw1 stroke1 dash1 fill1 j1 c1 in
  let second := draw_line sp ep bw2 stroke2 dash2 j2 c2 in
  (forall e, snd (first pg) = Raise e ->
             and_then first second pg = (pg, Raise e)) /\
  (snd (first pg) = Ok tt ->
   and_then first second pg =
     ((pg ++ fst (first []) ++ fst (second []))%list, snd (second []))).
Proof.
  intros first second. unfold and_then, bind. split.
  - intros e He.
    pose proof (draw_rect_raise_page pt w h bw1 stroke1 dash1 fill1 j1 c1
                  pg e He) as Hpg.
    fold first in Hpg. destruct (first pg) as [pg' r].
    cbn [fst snd] in He, Hpg. now subst.
  - intros Hok.
    pose proof (draw_rect_frame pt w h bw1 stroke1 dash1 fill1 j1 c1 pg)
      as Hframe.
    fold first in Hframe. rewrite Hframe in Hok |- *. cbn [snd] in Hok.
    rewrite Hok. unfold second.
    rewrite draw_line_frame. now rewrite app_assoc.
Qed.

End Composition.

Section Stages.

Context {num : Type} {N : PyNumber num} {L : PyNumberLaws num}.


Lemma passes_code (c : pyval num) (f : string) :
  c <> PyNone -> passes c ->
  exists s, color_code c f = Ok s /\ is_ascii s = true.
Proof.
  intros Hc [->|(r & g & b & -> & Hr & Hg & Hb)]; [now destruct Hc|].
  rewrite (color_code_in_unit r g b f Hr Hg Hb). eexists. split; [reflexivity|].
  apply color_op_ascii. now destruct (String.eqb f "c").
Qed.

Lemma passes_line_color (stroke : pyval num) :
  passes stroke ->
  exists col, line_color_str stroke = Ok col /\ is_ascii col = true.
Proof.
  intros H. unfold line_color_str.
  destruct (is_not_None stroke) eqn:E.
  - destruct (passes_code stroke "c") as (s & -> & A); trivial.
    { intros ->. discriminate. }
    eexists. split; [reflexivity|]. now rewrite is_ascii_app, A.
  - rewrite black_code. eexists. split; [reflexivity|].
    now rewrite is_ascii_app, color_op_ascii.
Qed.

Lemma passes_rect_color (fill stroke : pyval num) :
  passes fill -> passes stroke ->
  exists col, rect_color_str fill stroke = Ok col /\ is_ascii col = true.
Proof.
  intros Hf Hs. unfold rect_color_str.
  destruct (is_not_None fill) eqn:Ef; destruct (is_not_None stroke) eqn:Es;
    cbn [andb].
  - destruct (passes_code fill "f") as (a & -> & A); trivial.
    { intros ->. discriminate. }
    destruct (passes_code stroke "c") as (b & -> & B); trivial.
    { intros ->. discriminate. }
    eexists. split; [reflexivity|]. now rewrite !is_ascii_app, A, B.
  - destruct (passes_code fill "f") as (a & -> & A); trivial.
    { intros ->. discriminate. }
    eexists. split; [reflexivity|]. now rewrite !is_ascii_app, A.
  - destruct (passes_code stroke "c") as (b & -> & B); trivial.
    { intros ->. discriminate. }
    eexists. split; [reflexivity|]. now rewrite !is_ascii_app, B.
  - rewrite black_code. eexists. split; [reflexivity|].
    now rewrite !is_ascii_app, color_op_ascii.
Qed.


(** X7. A point with fewer than two coordinates raises IndexError once the
    guards and the colours have passed, and the page is as it was: the
    start or the end point of [draw_line], the corner of [draw_rect]. *)
Theorem short_point_raises (sp ep pt : list num) (w h bw : num)
    (stroke fill : pyval num) (dash : option string) (j c : num)
    (pg : page) :
  style_ok bw j c ->
  passes stroke ->
  (too_short sp \/ too_short ep ->
   draw_line sp ep bw stroke dash j c pg = (pg, Raise IndexError)) /\
  (passes fill -> too_short pt ->
   draw_rect pt w h bw stroke dash fill j c pg = (pg, Raise IndexError)).
Proof.
  intros (Hbw & Hj & Hc) Hs. split.
  - intros Hshort.
    destruct (passes_line_color stroke Hs) as (col & Hcol & _).
    unfold draw_line, bind, lift, subscript, too_short in *.
    rewrite Hbw, Hj, Hc, Hcol. cbn [negb].
    destruct sp as [|x0 [|y0 sp]]; try reflexivity.
    destruct Hshort as [H|H]; [simpl in H; lia|].
    destruct ep as [|x1 [|y1 ep]]; try reflexivity.
    simpl in H. lia.
  - intros Hf Hshort.
    destruct (passes_rect_color fill stroke Hf Hs) as (col & Hcol & _).
    unfold draw_rect, bind, lift, subscript, too_short in *.
    rewrite Hbw, Hj, Hc, Hcol. cbn [negb].
    destruct pt as [|x [|y pt]]; try reflexivity.
    simpl in Hshort. lia.
Qed.

(** X8. Once guards, colours and points are good, the dash pattern alone
    decides the call: with a pattern that is ASCII, or with none, the call
    puts its stream after the streams of the page; with a pattern that has
    a character outside ASCII it raises UnicodeEncodeError and the page is
    as it was. *)
Theorem dash_decides (x0 y0 x1 y1 x y : num) (sp ep pt : list num)
    (w h bw : num) (stroke fill : pyval num) (dash : option string)
    (j c : num) (pg : page) :
  style_ok bw j c ->
  passes stroke ->
  passes fill ->
  (dash_ascii dash = true ->
   (exists frag,
      draw_line (x0 :: y0 :: sp) (x1 :: y1 :: ep) bw stroke dash j c pg =
        ((pg ++ [frag])%list, Ok tt)) /\
   (exists frag,
      draw_rect (x :: y :: pt) w h bw stroke dash fill j c pg =
        ((pg ++ [frag])%list, Ok tt))) /\
  (dash_ascii dash = false ->
   draw_line (x0 :: y0 :: sp) (x1 :: y1 :: ep) bw stroke dash j c pg =
     (pg, Raise UnicodeEncodeError) /\
   draw_rect (x :: y :: pt) w h bw stroke dash fill j c pg =
     (pg, Raise UnicodeEncodeError)).
Proof.
  intros Hstyle Hs Hf.
  destruct (passes_line_color stroke Hs) as (lcol & Hlcol & Al).
  destruct (passes_rect_color fill stroke Hf Hs) as (rcol & Hrcol & Ar).
  split.
  - intros Hdash. split; eexists.
    + now apply (draw_line_run x0 y0 x1 y1 sp ep bw stroke dash j c pg lcol).
    + now apply (draw_rect_run x y pt w h bw stroke dash fill j c pg rcol).
  - intros Hdash. destruct dash as [d|]; [|discriminate].
    assert (Hd : is_ascii (dash_str (Some d)) = false)
      by (apply is_ascii_app_false_l; exact Hdash).
    destruct Hstyle as (Hbw & Hj & Hc). split.
    + unfold draw_line, bind, lift, bytes_ascii.
      rewrite Hbw, Hj, Hc, Hlcol. cbn [negb subscript nth_error].
      now rewrite line_template_not_ascii.
    + unfold draw_rect, bind, lift, bytes_ascii.
      rewrite Hbw, Hj, Hc, Hrcol. cbn [negb subscript nth_error].
      now rewrite rect_template_not_ascii.
Qed.

(** X9. With only a valid stroke colour given, a valid [draw_rect] call
    puts one fragment after the streams of the page; its tokens are [q],
    the corner, width and height and [re], the border width and [w], [h],
    the join style and [j], the cap style and [J], the dash pattern and [d]
    if one is given, and then the stroke colour, [RG] and [S], and [Q]: no
    paint operator stands between [RG] and [S]. *)
Theorem draw_rect_stroke_only (x y : num) (pt : list num) (w h bw : num)
    (stroke : pyval num) (dash : option string) (j c : num) (pg : page)
    (r g b : num) :
  style_ok bw j c ->
  valid_color stroke r g b ->
  dash_ascii dash = true ->
  let block := (color_op r g b "RG" ++ LF) ++ "S" in
  let frag :=
    rect_template (num_str x) (num_str y) (num_str w) (num_str h)
      (num_str bw) (num_str j) (num_str c) (dash_str dash) block in
  draw_rect (x :: y :: pt) w h bw stroke dash PyNone j c pg =
    ((pg ++ [frag])%list, Ok tt) /\
  tokens frag =
    (["q"; num_str x; num_str y; num_str w; num_str h; "re";
      num_str bw; "w"; "h"; num_str j; "j"; num_str c; "J"] ++
     dash_tokens dash ++
     [num_str r; num_str g; num_str b; "RG"; "S"; "Q"])%list.
Proof.
  intros Hstyle (-> & Hr & Hg & Hb) Hdash block frag. split.
  - apply draw_rect_run; trivial.
    + unfold rect_color_str. cbn [is_not_None andb].
      now rewrite (color_code_in_unit r g b "c" Hr Hg Hb).
    + unfold block. rewrite !is_ascii_app, !color_op_ascii; reflexivity.
  - unfold frag, block. rewrite rect_template_tokens.
    rewrite !app_str_assoc, color_op_tokens.
    rewrite dash_str_tokens, !num_str_tokens. reflexivity.
Qed.

End Stages.

(** ** Every fragment ends by stroking *)

Lemma line_template_tokens_tail (x0 y0 x1 y1 w j c dash : string) :
  exists pre, forall color,
    tokens (line_template x0 y0 x1 y1 w j c dash color) =
    (pre ++ tokens color ++ ["Q"])%list.
Proof.
  exists (["q"] ++ tokens x0 ++ tokens y0 ++ ["m"] ++
          tokens x1 ++ tokens y1 ++ ["l"] ++
          tokens w ++ ["w"; "h"] ++ tokens j ++ ["j"] ++ tokens c ++ ["J"] ++
          tokens dash)%list.
  intros color. rewrite line_template_tokens.
  repeat (rewrite <- app_assoc; cbn [app]). reflexivity.
Qed.

Lemma rect_template_tokens_tail (x y width height w j c dash : string) :
  exists pre, forall color,
    tokens (rect_template x y width height w j c dash color) =
    (pre ++ tokens color ++ ["Q"])%list.
Proof.
  exists (["q"] ++ tokens x ++ tokens y ++ tokens width ++ tokens height ++
          ["re"] ++
          tokens w ++ ["w"; "h"] ++ tokens j ++ ["j"] ++ tokens c ++ ["J"] ++
          tokens dash)%list.
  intros color. rewrite rect_template_tokens.
  repeat (rewrite <- app_assoc; cbn [app]). reflexivity.
Qed.

Lemma tokens_then_S (a : string) :
  ends_ws a = true -> tokens (a ++ "S") = (tokens a ++ ["S"])%list.
Proof.
  intros Ha. now rewrite tokens_app_l.
Qed.

Section Stroked.

Context {num : Type} {N : PyNumber num}.

(** What [color_code] returns ends with a blank. *)
Lemma color_code_ok_blank (c : pyval num) (f s : string) :
  color_code c f = Ok s -> exists a, s = a ++ " ".
Proof.
  destruct c as [| |t|l|l]; try discriminate.
  destruct l as [|r [|g [|b [|x l]]]]; try discriminate.
  rewrite color_code_list3.
  destruct (num_lt _ (of_int 0)); [discriminate|].
  destruct (num_lt (of_int 1) _); [discriminate|].
  intros [= <-].
  exists (num_str r ++ " " ++ num_str g ++ " " ++ num_str b ++ " " ++
          (if String.eqb f "c" then "RG" else "rg")).
  unfold color_op. rewrite !app_str_assoc. reflexivity.
Qed.

Lemma line_color_str_stroked (stroke : pyval num) (col : string) :
  line_color_str stroke = Ok col -> exists pre, tokens col = (pre ++ ["S"])%list.
Proof.
  unfold line_color_str, rbind.
  destruct (if is_not_None stroke then _ else _) as [s|] eqn:E;
    [|discriminate].
  intros [= <-].
  assert (Hs : exists a, s = a ++ " ").
  { destruct (is_not_None stroke); exact (color_code_ok_blank _ _ _ E). }
  destruct Hs as [a ->]. eexists.
  apply tokens_then_S. now apply ends_ws_app.
Qed.

Lemma rect_color_str_stroked (fill stroke : pyval num) (col : string) :
  rect_color_str fill stroke = Ok col ->
  exists pre, tokens col = (pre ++ ["S"])%list.
Proof.
  unfold rect_color_str, rbind.
  destruct (is_not_None fill), (is_not_None stroke); cbn [andb];
    repeat match goal with
           | |- context [color_code ?v ?f] => destruct (color_code v f)
           end;
    try discriminate; intros [= <-]; eexists;
    apply tokens_then_S; repeat apply ends_ws_app; reflexivity.
Qed.

(** X10. Every fragment that [draw_line] or [draw_rect] puts on the page
    ends with the tokens [S] and [Q]: whatever colours are given and
    whatever branch is taken, the path is stroked last and the graphics
    state is restored. *)
Theorem fragments_end_stroked (sp ep pt : list num) (w h bw : num)
    (stroke fill : pyval num) (dash : option string) (j c : num)
    (pg pg' : page) :
  (draw_line sp ep bw stroke dash j c pg = (pg', Ok tt) ->
   exists frag pre,
     pg' = (pg ++ [frag])%list /\ tokens frag = (pre ++ ["S"; "Q"])%list) /\
  (draw_rect pt w h bw stroke dash fill j c pg = (pg', Ok tt) ->
   exists frag pre,
     pg' = (pg ++ [frag])%list /\ tokens frag = (pre ++ ["S"; "Q"])%list).
Proof.
  split.
  - unfold draw_line, bind, lift, raise, contents_add, bytes_ascii, subscript.
    destruct (num_lt bw (of_int 0)); [discriminate|].
    destruct (negb (in_012 j)); [discriminate|].
    destruct (negb (in_012 c)); [discriminate|].
    destruct (line_color_str stroke) as [col|] eqn:E; [|discriminate].
    destruct (nth_error sp 0) as [x0|]; [|discriminate].
    destruct (nth_error sp 1) as [y0|]; [|discriminate].
    destruct (nth_error ep 0) as [x1|]; [|discriminate].
    destruct (nth_error ep 1) as [y1|]; [|discriminate].
    destruct (is_ascii _); [|discriminate].
    intros [= <-].
    destruct (line_color_str_stroked stroke col E) as [cpre Hc].
    destruct (line_template_tokens_tail (num_str x0) (num_str y0)
                (num_str x1) (num_str y1) (num_str bw) (num_str j)
                (num_str c) (dash_str dash)) as [pre Hpre].
    eexists. exists (pre ++ cpre)%list. split; [reflexivity|].
    rewrite Hpre, Hc. now rewrite <- !app_assoc.
  - unfold draw_rect, bind, lift, raise, contents_add, bytes_ascii, subscript.
    destruct (num_lt bw (of_int 0)); [discriminate|].
    destruct (negb (in_012 j)); [discriminate|].
    destruct (negb (in_012 c)); [discriminate|].
    destruct (rect_color_str fill stroke) as [col|] eqn:E; [|discriminate].
    destruct (nth_error pt 0) as [x|]; [|discriminate].
    destruct (nth_error pt 1) as [y|]; [|discriminate].
    destruct (is_ascii _); [|discriminate].
    intros [= <-].
    destruct (rect_color_str_stroked fill stroke col E) as [cpre Hc].
    destruct (rect_template_tokens_tail (num_str x) (num_str y)
                (num_str w) (num_str h) (num_str bw) (num_str j)
                (num_str c) (dash_str dash)) as [pre Hpre].
    eexists. exists (pre ++ cpre)%list. split; [reflexivity|].
    rewrite Hpre, Hc. now rewrite <- !app_assoc.
Qed.

End Stroked.

(** ** Runs on Python ints *)

Open Scope Z_scope.

(** The fourth rectangle of the script, on a page 792 units high: only a
    fill colour is given, and the fragment has the [S] operator. *)
Lemma draw_rect_fill_only_strokes :
  ~ (forall frag,
       fst (draw_rect [400; 682] 50 50 0 PyNone None (PyList [1; 0; 0]) 0 0 [])
         = [frag] ->
       ~ In "S" (tokens frag)).
Proof.
  intros H. apply (H _ eq_refl). vm_compute. do 18 right. now left.
Qed.

(** A dash pattern that holds a fill colour and a fill: the code copies
    it unread, and the fragment of the line has the fill operator [f]. *)
Lemma draw_line_dash_fills :
  ~ (forall frag op,
       fst (draw_line [10; 50] [300; -400] 2 (PyList [0; 1; 1])
              (Some "0 0 1 rg f [2 5] 0") 1 1 []) = [frag] ->
       In op fill_operators -> ~ In op (tokens frag)).
Proof.
  intros H. apply (H _ "f" eq_refl).
  - now left.
  - vm_compute. do 18 right. now left.
Qed.

Lemma color_code_valid_witness :
  color_code (PyList [0; 1; 0]) "c" = Ok "0 1 0 RG " /\
  color_code (PyList [0; 1; 0]) "f" = Ok "0 1 0 rg ".
Proof.
  exact (color_code_valid 0 1 0 eq_refl eq_refl eq_refl).
Defined.

Lemma color_code_invalid_witness :
  color_code (PyList [0; -1; 0]) "c" = Raise InvalidColor /\
  color_code (PyList [0; 2; 0]) "f" = Raise InvalidColor /\
  color_code (PyList [0; 1]) "c" = Raise InvalidColor.
Proof.
  split; [|split]; apply color_code_invalid; simpl.
  - right. exists (-1). split; [tauto | left; reflexivity].
  - right. exists 2. split; [tauto | right; reflexivity].
  - left. discriminate.
Defined.

Lemma color_code_not_list_witness :
  color_code (PyTuple [0; 1; 0]) "c" = Raise InvalidColor /\
  (forall s, color_code (PyTuple [0; 1; 0]) "c" <> Ok s).
Proof.
  apply color_code_not_list. intros l. discriminate.
Defined.

Lemma color_code_mode_witness :
  color_code (PyList [0; 1; 0]) "stroke" = Ok "0 1 0 rg " /\
  color_code (PyList [0; 1; 0]) "c" = Ok "0 1 0 RG ".
Proof.
  split.
  - refine (proj1 (color_code_mode 0 1 0 "stroke" eq_refl eq_refl eq_refl) _).
    discriminate.
  - exact (proj2 (color_code_mode 0 1 0 "c" eq_refl eq_refl eq_refl) eq_refl).
Defined.

Lemma draw_line_fragment_witness :
  let frag :=
    line_template "10" "50" "300" "-400" "2" "1" "1" "[2 5] 0 d"
      "0 1 1 RG S" in
  draw_line [10; 50] [300; -400] 2 (PyList [0; 1; 1]) (Some "[2 5] 0") 1 1 []
    = ([frag], Ok tt) /\
  tokens frag =
    ["q"; "10"; "50"; "m"; "300"; "-400"; "l"; "2"; "w"; "h"; "1"; "j";
     "1"; "J"; "[2"; "5]"; "0"; "d"; "0"; "1"; "1"; "RG"; "S"; "Q"].
Proof.
  assert (Hstyle : style_ok 2 1 1) by (repeat split).
  assert (Hrgb : stroke_rgb (PyList [0; 1; 1]) 0 1 1)
    by (left; repeat split).
  destruct (draw_line_fragment 10 50 300 (-400) [] [] 2 (PyList [0; 1; 1])
              (Some "[2 5] 0") 1 1 [] 0 1 1 Hstyle Hrgb eq_refl)
    as (Hrun & Htok & _).
  split; [exact Hrun | exact Htok].
Defined.

Lemma default_black_stroke_witness :
  (exists pre,
     draw_line [10; 50] [300; -400] 2 PyNone None 1 1 [] =
     ([pre ++ "0 0 0 RG " ++ "S" ++ NL ++ "Q" ++ NL], Ok tt)) /\
  (exists pre,
     draw_rect [10; 682] 50 100 5 PyNone None PyNone 0 0 [] =
     ([pre ++ "0 0 0 RG " ++ LF ++ "S" ++ NL ++ "Q" ++ NL], Ok tt)).
Proof.
  assert (Hline : style_ok 2 1 1) by (repeat split).
  assert (Hrect : style_ok 5 0 0) by (repeat split).
  split.
  - exact (proj1 (default_black_stroke 10 50 300 (-400) [] [] 0 0 [] 0 0 2
                    None 1 1 [] Hline eq_refl)).
  - exact (proj2 (default_black_stroke 0 0 0 0 [] [] 10 682 [] 50 100 5
                    None 0 0 [] Hrect eq_refl)).
Defined.

(** The second rectangle of the script: red fill, black stroke. *)
Lemma draw_rect_fill_and_stroke_witness :
  let block := "1 0 0 rg 0 0 0 RG B" ++ LF ++ "S" in
  draw_rect [100; 682] 50 100 5 (PyList [0; 0; 0]) None (PyList [1; 0; 0]) 0 0
    [] = ([rect_template "100" "682" "50" "100" "5" "0" "0" " " block], Ok tt)
  /\
  tokens block = ["1"; "0"; "0"; "rg"; "0"; "0"; "0"; "RG"; "B"; "S"].
Proof.
  assert (Hstyle : style_ok 5 0 0) by (repeat split).
  assert (Hfill : valid_color (PyList [1; 0; 0]) 1 0 0) by (repeat split).
  assert (Hstroke : valid_color (PyList [0; 0; 0]) 0 0 0) by (repeat split).
  destruct (draw_rect_fill_and_stroke 100 682 [] 50 100 5 (PyList [0; 0; 0])
              None (PyList [1; 0; 0]) 0 0 [] 1 0 0 0 0 0
              Hstyle Hfill Hstroke eq_refl)
    as (Hrun & Hblock & _).
  split; [exact Hrun | exact Hblock].
Defined.

(** The fourth rectangle of the script: red fill only. *)
Lemma draw_rect_fill_only_witness :
  let block := "1 0 0 rg f" ++ LF ++ "S" in
  draw_rect [400; 682] 50 50 0 PyNone None (PyList [1; 0; 0]) 0 0 []
    = ([rect_template "400" "682" "50" "50" "0" "0" "0" " " block], Ok tt) /\
  tokens block = ["1"; "0"; "0"; "rg"; "f"; "S"].
Proof.
  assert (Hstyle : style_ok 0 0 0) by (repeat split).
  assert (Hfill : valid_color (PyList [1; 0; 0]) 1 0 0) by (repeat split).
  destruct (draw_rect_fill_only 400 682 [] 50 50 0 None (PyList [1; 0; 0])
              0 0 [] 1 0 0 Hstyle Hfill eq_refl)
    as (Hrun & Hblock & _).
  split; [exact Hrun | exact Hblock].
Defined.

Lemma style_validation_witness :
  draw_line [10; 50] [300; -400] (-1) PyNone None 0 0 ["x"] =
    (["x"], Raise (ValueError msg_border_width)) /\
  draw_rect [10; 682] 50 100 (-1) PyNone None PyNone 0 0 ["x"] =
    (["x"], Raise (ValueError msg_border_width)) /\
  (exists e, InvalidParameter e /\
     draw_line [10; 50] [300; -400] 2 PyNone None 3 0 ["x"] =
       (["x"], Raise e) /\
     draw_rect [10; 682] 50 100 2 PyNone None PyNone 3 0 ["x"] =
       (["x"], Raise e)) /\
  snd (draw_line [10; 50] [300; -400] 2 PyNone None 1 2 ["x"]) <>
    Raise (ValueError msg_line_cap).
Proof.
  split; [|split; [|split]].
  - exact (proj1 (proj1 (style_validation [10; 50] [300; -400] [10; 682]
                           50 100 (-1) PyNone PyNone None 0 0 ["x"])
                    eq_refl)).
  - exact (proj2 (proj1 (style_validation [10; 50] [300; -400] [10; 682]
                           50 100 (-1) PyNone PyNone None 0 0 ["x"])
                    eq_refl)).
  - exact (proj1 (proj2 (style_validation [10; 50] [300; -400] [10; 682]
                           50 100 2 PyNone PyNone None 3 0 ["x"]))
             (or_introl eq_refl)).
  - assert (Hstyle : style_ok 2 1 2) by (repeat split).
    assert (He : InvalidParameter (ValueError msg_line_cap))
      by (right; right; reflexivity).
    exact (proj1 (proj2 (proj2 (style_validation [10; 50] [300; -400]
                                  [10; 682] 50 100 2 PyNone PyNone None 1 2
                                  ["x"])) Hstyle _ He)).
Defined.

(** A negative border width and a tuple as colour: the page keeps its one
    stream. *)
Lemma validation_aborts_witness :
  fst (draw_line [10; 50] [300; -400] (-1) PyNone None 0 0 ["x"]) = ["x"] /\
  fst (draw_rect [10; 682] 50 100 5 PyNone None (PyTuple [1; 0; 0]) 0 0 ["x"])
    = ["x"].
Proof.
  split.
  - exact (proj1 (validation_aborts [10; 50] [300; -400] [10; 682] 50 100
                    (-1) PyNone PyNone None 0 0 ["x"]
                    (ValueError msg_border_width)) eq_refl).
  - exact (proj2 (validation_aborts [10; 50] [300; -400] [10; 682] 50 100
                    5 PyNone (PyTuple [1; 0; 0]) None 0 0 ["x"]
                    InvalidColor) eq_refl).
Defined.

(** ** Runs on Python ints for the further properties *)

Lemma color_code_sound_witness :
  exists r g b : Z,
    PyList [1; 0; 0] = PyList [r; g; b] /\
    "1 0 0 rg " = num_str r ++ " " ++ num_str g ++ " " ++ num_str b ++ " " ++
                  "rg" ++ " " /\
    ends_ws "1 0 0 rg " = true /\
    forall rest,
      tokens ("1 0 0 rg " ++ rest) = (tokens "1 0 0 rg " ++ tokens rest)%list.
Proof.
  exact (color_code_sound (PyList [1; 0; 0]) "f" "1 0 0 rg " eq_refl).
Defined.

Lemma guard_order_witness :
  draw_line [10; 50] [300; -400] 2 PyNone None 3 7 ["x"] =
    (["x"], Raise (ValueError msg_line_join)) /\
  draw_rect [10; 682] 50 100 2 PyNone None PyNone 1 7 ["x"] =
    (["x"], Raise (ValueError msg_line_cap)).
Proof.
  split.
  - exact (proj1 (proj1 (guard_order [10; 50] [300; -400] [10; 682] 50 100 2
                           PyNone PyNone None 3 7 ["x"] eq_refl) eq_refl)).
  - exact (proj2 (proj2 (guard_order [10; 50] [300; -400] [10; 682] 50 100 2
                           PyNone PyNone None 1 7 ["x"] eq_refl)
                    eq_refl eq_refl)).
Defined.

(** The first rectangle of the script, then a line with a bad join style:
    the rectangle stays on the page. *)
Lemma draw_sequence_witness :
  and_then
    (draw_rect [10; 682] 50 100 5 (PyList [0; 1; 0]) (Some "[2 2] 0") PyNone
       1 0)
    (draw_line [10; 50] [300; -400] 2 PyNone None 3 0) ["x"] =
  (["x"; rect_template "10" "682" "50" "100" "5" "1" "0" "[2 2] 0 d"
           ("0 1 0 RG " ++ LF ++ "S")],
   Raise (ValueError msg_line_join)) /\
  and_then
    (draw_rect [10; 682] 50 100 (-5) (PyList [0; 1; 0]) None PyNone 1 0)
    (draw_line [10; 50] [300; -400] 2 PyNone None 1 0) ["x"] =
  (["x"], Raise (ValueError msg_border_width)).
Proof.
  split.
  - exact (proj2 (draw_sequence [10; 682] 50 100 5 (PyList [0; 1; 0]) PyNone
                    (Some "[2 2] 0") 1 0 [10; 50] [300; -400] 2 PyNone None
                    3 0 ["x"]) eq_refl).
  - exact (proj1 (draw_sequence [10; 682] 50 100 (-5) (PyList [0; 1; 0])
                    PyNone None 1 0 [10; 50] [300; -400] 2 PyNone None
                    1 0 ["x"]) _ eq_refl).
Defined.


Lemma short_point_raises_witness :
  draw_line [10] [300; -400] 2 PyNone None 0 0 ["x"] =
    (["x"], Raise IndexError) /\
  draw_rect [] 50 100 2 PyNone None PyNone 0 0 ["x"] =
    (["x"], Raise IndexError).
Proof.
  assert (Hstyle : style_ok 2 0 0) by (repeat split).
  assert (Hnone : passes (PyNone : pyval Z)) by (now left).
  assert (Hone : too_short [10]) by (unfold too_short; simpl; lia).
  assert (Hnil : too_short ([] : list Z)) by (unfold too_short; simpl; lia).
  split.
  - exact (proj1 (short_point_raises [10] [300; -400] [] 50 100 2 PyNone
                    PyNone None 0 0 ["x"] Hstyle Hnone) (or_introl Hone)).
  - exact (proj2 (short_point_raises [10] [300; -400] [] 50 100 2 PyNone
                    PyNone None 0 0 ["x"] Hstyle Hnone) Hnone Hnil).
Defined.

(** A dash pattern with the two bytes of a letter outside ASCII. *)
Lemma dash_decides_witness :
  draw_line [10; 50] [300; -400] 2 PyNone
    (Some (String (ascii_of_nat 195) (String (ascii_of_nat 169) ""))) 0 0
    ["x"] = (["x"], Raise UnicodeEncodeError) /\
  exists frag,
    draw_rect [10; 682] 50 100 2 PyNone (Some "[2 2] 0") PyNone 0 0 ["x"] =
    (["x"; frag], Ok tt).
Proof.
  assert (Hstyle : style_ok 2 0 0) by (repeat split).
  assert (Hnone : passes (PyNone : pyval Z)) by (now left).
  split.
  - exact (proj1 (proj2 (dash_decides 10 50 300 (-400) 10 682 [] [] [] 50 100
                           2 PyNone PyNone
                           (Some (String (ascii_of_nat 195)
                                    (String (ascii_of_nat 169) "")))
                           0 0 ["x"] Hstyle Hnone Hnone) eq_refl)).
  - exact (proj2 (proj1 (dash_decides 10 50 300 (-400) 10 682 [] [] [] 50 100
                           2 PyNone PyNone (Some "[2 2] 0")
                           0 0 ["x"] Hstyle Hnone Hnone) eq_refl)).
Defined.

(** The first rectangle of the script: green stroke only. *)
Lemma draw_rect_stroke_only_witness :
  let frag :=
    rect_template "10" "682" "50" "100" "5" "1" "0" "[2 2] 0 d"
      ("0 1 0 RG " ++ LF ++ "S") in
  draw_rect [10; 682] 50 100 5 (PyList [0; 1; 0]) (Some "[2 2] 0") PyNone 1 0
    [] = ([frag], Ok tt) /\
  tokens frag =
    ["q"; "10"; "682"; "50"; "100"; "re"; "5"; "w"; "h"; "1"; "j"; "0"; "J";
     "[2"; "2]"; "0"; "d"; "0"; "1"; "0"; "RG"; "S"; "Q"].
Proof.
  assert (Hstyle : style_ok 5 1 0) by (repeat split).
  assert (Hstroke : valid_color (PyList [0; 1; 0]) 0 1 0) by (repeat split).
  exact (draw_rect_stroke_only 10 682 [] 50 100 5 (PyList [0; 1; 0])
           (Some "[2 2] 0") 1 0 [] 0 1 0 Hstyle Hstroke eq_refl).
Defined.

(** The fourth rectangle of the script, fill only: [S] and [Q] come last. *)
Lemma fragments_end_stroked_witness :
  exists frag pre,
    [rect_template "400" "682" "50" "50" "0" "0" "0" " "
       ("1 0 0 rg f" ++ LF ++ "S")] = ([] ++ [frag])%list /\
    tokens frag = (pre ++ ["S"; "Q"])%list.
Proof.
  exact (proj2 (fragments_end_stroked [] [] [400; 682] 50 50 0 PyNone
                  (PyList [1; 0; 0]) None 0 0 []
                  [rect_template "400" "682" "50" "50" "0" "0" "0" " "
                     ("1 0 0 rg f" ++ LF ++ "S")]) eq_refl).
Defined.
